(** * newid-mount: the device-mount orchestration of [mount.go]

    A shallow embedding of [mount.go] and the properties of its
    orchestration.

    - Go strings are byte strings ([string]).  [strings.ToLower] and
      [strings.Fields] are modelled on the ASCII range; bytes outside
      it are kept as they are.
    - The program reaches the machine through two libraries that are
      not part of the repository: go-cmd, which starts a process and
      reports its exit code, output lines and error, and
      go-basic/uuid.  Both are parameters of the development, acting
      on an abstract [World].
    - A method of [*DevMounter] is a computation on a state that holds
      the world, the mounter its receiver points to, and the trace of
      the command lines handed to [ExecCmd] that started a process.
      The trace is a ghost: the program does not read it.
    - A computation ends by returning or by a Go [panic]. *)

From Stdlib Require Import String Ascii List ZArith Bool Lia.
Import ListNotations.
Open Scope string_scope.
Open Scope Z_scope.

(** ** The parts of Go's standard library the program calls *)

(** Bytes that cannot be written inside a literal. *)
Definition dquote : ascii := "034"%char.
Definition newline : ascii := "010"%char.

Module strings.

(** [strings.ToLower] on the ASCII range: [A-Z] to [a-z], every
    other byte kept.  Go also lower-cases the letters outside ASCII
    and rewrites invalid UTF-8; on a text of ASCII bytes this is Go's
    function. *)
Definition lower_byte (c : ascii) : ascii :=
  let n := nat_of_ascii c in
  if (Nat.leb 65 n && Nat.leb n 90)%bool then ascii_of_nat (n + 32) else c.

Fixpoint ToLower (s : string) : string :=
  match s with
  | EmptyString => EmptyString
  | String c t => String (lower_byte c) (ToLower t)
  end.

(** [strings.HasPrefix s prefix]. *)
Fixpoint HasPrefix (s prefix : string) : bool :=
  match prefix, s with
  | EmptyString, _ => true
  | String _ _, EmptyString => false
  | String p ps, String c cs => (Ascii.eqb p c && HasPrefix cs ps)%bool
  end.

(** [strings.Contains s substr]: [substr] starts at some offset of [s]. *)
Fixpoint Contains (s substr : string) : bool :=
  (HasPrefix s substr
   || match s with
      | EmptyString => false
      | String _ t => Contains t substr
      end)%bool.

(** The ASCII white space of [strings.Fields].  Go also splits at
    the white space outside ASCII (U+0085, U+00A0 and the like); on a
    line of ASCII bytes [Fields] below is Go's function. *)
Definition isSpace (c : ascii) : bool :=
  let n := nat_of_ascii c in
  ((Nat.leb 9 n && Nat.leb n 13) || Nat.eqb n 32)%bool.

(** [fields_from tok s]: the fields of [s], [tok] being the field
    under construction. *)
Fixpoint fields_from (tok s : string) : list string :=
  match s with
  | EmptyString =>
      match tok with EmptyString => [] | _ => [tok] end
  | String c t =>
      if isSpace c then
        match tok with
        | EmptyString => fields_from EmptyString t
        | _ => tok :: fields_from EmptyString t
        end
      else fields_from (tok ++ String c EmptyString) t
  end.

(** [strings.Fields]: the maximal runs of bytes that are not white space. *)
Definition Fields (s : string) : list string := fields_from EmptyString s.

(** [strings.Join elems sep]. *)
Fixpoint Join (elems : list string) (sep : string) : string :=
  match elems with
  | [] => EmptyString
  | [e] => e
  | e :: rest => e ++ sep ++ Join rest sep
  end.

End strings.

Module regexp.

(** The pattern of [QueryDeviceUUID] is
    [uuid=] quote [(?P<uuid>.*?)] quote.  [FindStringSubmatch] takes
    the leftmost match; the lazy group takes the fewest bytes, and
    [.] matches no newline. *)

Definition uuid_key : string := "uuid=" ++ String dquote EmptyString.

(** [strip_prefix p s]: the rest of [s] after its prefix [p]. *)
Fixpoint strip_prefix (p s : string) : option string :=
  match p, s with
  | EmptyString, _ => Some s
  | String _ _, EmptyString => None
  | String a p', String c s' =>
      if Ascii.eqb a c then strip_prefix p' s' else None
  end.

(** The lazy group followed by the closing quote, matched at the
    head of [s]: the bytes before the first quote, when no newline
    stands before it. *)
Fixpoint lazy_group (s : string) : option string :=
  match s with
  | EmptyString => None
  | String c t =>
      if Ascii.eqb c dquote then Some EmptyString
      else if Ascii.eqb c newline then None
      else option_map (String c) (lazy_group t)
  end.

Definition match_here (s : string) : option string :=
  match strip_prefix uuid_key s with
  | Some rest => lazy_group rest
  | None => None
  end.

(** The capture group of the leftmost match, [None] when the
    pattern matches nowhere ([FindStringSubmatch] returns nil). *)
Fixpoint find_uuid (s : string) : option string :=
  match match_here s with
  | Some u => Some u
  | None =>
      match s with
      | EmptyString => None
      | String _ t => find_uuid t
      end
  end.

(** [FindStringSubmatch]: the whole match and the group, or nil. *)
Definition FindStringSubmatch (s : string) : list string :=
  match find_uuid s with
  | Some u => [uuid_key ++ u ++ String dquote EmptyString; u]
  | None => []
  end.

End regexp.

(** ** Errors, file systems and tools *)

(** The package's error values, and the errors of the process
    launcher, which are values of the launcher's own and so none of
    the package's. *)
Inductive error : Type :=
| ErrUnsFs
| ErrUnKFs
| ErrDevUUID
| ErrGenUUID
| ErrQueryUUID
| ErrUMount
| ErrMount
| ErrExec (msg : string).

Definition FileSystemType : Type := string.

Definition FsXFS_ : FileSystemType := "xfs".
Definition FsExt2 : FileSystemType := "ext2".
Definition FsExt3 : FileSystemType := "ext3".
Definition FsExt4 : FileSystemType := "ext4".
Definition FsNTFs : FileSystemType := "ntfs".

Definition Caller_ : Type := string.

Definition CMount : Caller_ := "mount".
Definition CUMount : Caller_ := "umount".
Definition CNTFs3g : Caller_ := "ntfs-3g".
Definition CTune2FS : Caller_ := "tune2fs".
Definition CBlkID : Caller_ := "blkid".
Definition CFile : Caller_ := "file".
Definition CXFSAdmin : Caller_ := "xfs_admin".

(** What a [panic] carries: [panic(ErrUnsFs)], [panic(CMount)], or a
    run-time error of Go itself. *)
Inductive panic_value : Type :=
| PanicError (e : error)
| PanicCaller (c : Caller_)
| PanicRuntime (msg : string).

(** The final status of a child process, as go-cmd reports it. *)
Record Status : Type := mkStatus {
  Exit : Z;
  Stdout : list string;
  Error : option string
}.

Record args_t (Ctx : Type) : Type := mkArgs {
  dev : string;
  path_ : string;
  ctx : Ctx
}.
Arguments mkArgs {Ctx}.
Arguments dev {Ctx}.
Arguments path_ {Ctx}.
Arguments ctx {Ctx}.

Record DevMounter (Ctx : Type) : Type := mkDevMounter {
  args_ : args_t Ctx;
  caller_ : Caller_;
  fs : FileSystemType;
  uuid_ : string
}.
Arguments mkDevMounter {Ctx}.
Arguments args_ {Ctx}.
Arguments caller_ {Ctx}.
Arguments fs {Ctx}.
Arguments uuid_ {Ctx}.

(** [NewMounterWithArgs]: a zeroed [DevMounter] with its three
    arguments stored. *)
Definition NewMounterWithArgs {Ctx : Type} (dev0 path0 : string) (ctx0 : Ctx)
  : DevMounter Ctx :=
  {| args_ := {| dev := dev0; path_ := path0; ctx := ctx0 |};
     caller_ := EmptyString;
     fs := EmptyString;
     uuid_ := EmptyString |}.

(** ** The state of a run and its monad *)

Record State (World Ctx : Type) : Type := mkState {
  world : World;              (* the machine outside the process *)
  trace : list string;        (* command lines run so far, oldest first *)
  mounter : DevMounter Ctx    (* the object the receiver m points to *)
}.
Arguments mkState {World Ctx}.
Arguments world {World Ctx}.
Arguments trace {World Ctx}.
Arguments mounter {World Ctx}.

Inductive Result (St A : Type) : Type :=
| Ok (a : A) (s : St)
| Panic (v : panic_value) (s : St).
Arguments Ok {St A}.
Arguments Panic {St A}.

Definition final_state {St A : Type} (r : Result St A) : St :=
  match r with
  | Ok _ s => s
  | Panic _ s => s
  end.

Definition M (St A : Type) : Type := St -> Result St A.

Definition ret {St A : Type} (a : A) : M St A := fun s => Ok a s.

Definition bind {St A B : Type} (c : M St A) (k : A -> M St B) : M St B :=
  fun s =>
    match c s with
    | Ok a s' => k a s'
    | Panic v s' => Panic v s'
    end.

Definition panic {St A : Type} (v : panic_value) : M St A :=
  fun s => Panic v s.

Declare Scope go_scope.
Delimit Scope go_scope with go.
Notation "x <- c ;; k" := (bind c (fun x => k))
  (at level 61, c at next level, right associativity) : go_scope.
Notation "' pat <- c ;; k" := (bind c (fun x => match x with pat => k end))
  (at level 61, pat pattern, c at next level, right associativity) : go_scope.
Open Scope go_scope.

(** ** A scripted machine, for concrete runs *)

Module Script.

(** The machine is the list of the statuses its next processes will
    end with, whatever they are asked to run; past the end of the list
    a process exits 0 and prints nothing. *)
Definition World : Type := list Status.

Definition cmd_Start (w : World) (name : string) (args : list string)
  : World * Status :=
  match w with
  | [] => ([], mkStatus 0 [] None)
  | st :: rest => (rest, st)
  end.

Definition uuid_New (w : World) : World * string :=
  (w, "6ba7b810-9dad-11d1-80b4-00c04fd430c8").

(** A process that ran to its end with exit code [code]. *)
Definition exits (code : Z) (lines : list string) : Status :=
  mkStatus code lines None.

(** The state [main] starts from: a fresh mounter, nothing run yet. *)
Definition fresh (w : World) (dev0 path0 : string) : State World string :=
  {| world := w; trace := [];
     mounter := NewMounterWithArgs dev0 path0 "{}" |}.

(** The same after [BindArgs] on a device of type [fs0]. *)
Definition bound (w : World) (dev0 path0 : string) (fs0 : FileSystemType)
  : State World string :=
  {| world := w; trace := [];
     mounter := {| args_ := {| dev := dev0; path_ := path0; ctx := "{}" |};
                   caller_ := "mount"; fs := fs0; uuid_ := EmptyString |} |}.

(** A line of [blkid] with UUID [u]. *)
Definition blkid_line (u : string) : string :=
  "/dev/sdb1: UUID=" ++ String dquote u
    ++ String dquote
         (" TYPE=" ++ String dquote ("ext4" ++ String dquote EmptyString)).

(** An ext4 device: every tool succeeds and the device is listed. *)
Definition ext4_run : World :=
  [ exits 0 ["/dev/sdb1: Linux rev 1.0 ext4 filesystem data"];
    exits 0 [];
    exits 0 [blkid_line "1234-ABCD"];
    exits 0 [];
    exits 0 ["/dev/sdb1 on /mnt/data type ext4 (rw)"] ].

(** An ntfs device: the tool mounts it and the device is listed. *)
Definition ntfs_run : World :=
  [ exits 0 ["/dev/sdb1: DOS/MBR boot sector, OEM-ID NTFS"];
    exits 0 [];
    exits 0 ["/dev/sdb1 on /mnt/data type fuseblk (rw)"] ].

End Script.

(** In the words of the specification: [q] is a whole token of the
    listing [out], a token being a maximal run of bytes that are no
    white space. *)
Definition spec_whole_token (q out : string) : Prop := In q (strings.Fields out).

(** ** The program *)

Section Program.

Import strings.

(** The collaborators outside the repository. *)
Variable World : Type.
Variable Ctx : Type.
(** go-cmd: start [name] with [args], wait for it to end. *)
Variable cmd_Start : World -> string -> list string -> World * Status.
(** go-basic/uuid: [uuid.New()]. *)
Variable uuid_New : World -> World * string.

Local Abbreviation St := (State World Ctx).
Local Abbreviation Go := (M St).

Definition get_m : Go (DevMounter Ctx) := fun s => Ok (mounter s) s.

(** Assignments to the fields of the receiver. *)
Definition with_fs (v : FileSystemType) (m : DevMounter Ctx) : DevMounter Ctx :=
  {| args_ := args_ m; caller_ := caller_ m; fs := v; uuid_ := uuid_ m |}.

Definition with_caller (c : Caller_) (m : DevMounter Ctx) : DevMounter Ctx :=
  {| args_ := args_ m; caller_ := c; fs := fs m; uuid_ := uuid_ m |}.

Definition with_uuid (u : string) (m : DevMounter Ctx) : DevMounter Ctx :=
  {| args_ := args_ m; caller_ := caller_ m; fs := fs m; uuid_ := u |}.

Definition upd_mounter (f : DevMounter Ctx -> DevMounter Ctx) (s : St) : St :=
  {| world := world s; trace := trace s; mounter := f (mounter s) |}.

Definition set_fs (v : FileSystemType) : Go unit :=
  fun s => Ok tt (upd_mounter (with_fs v) s).

Definition set_caller (c : Caller_) : Go unit :=
  fun s => Ok tt (upd_mounter (with_caller c) s).

Definition set_uuid (u : string) : Go unit :=
  fun s => Ok tt (upd_mounter (with_uuid u) s).

Definition new_uuid : Go string :=
  fun s =>
    let '(w, u) := uuid_New (world s) in
    Ok u {| world := w; trace := trace s; mounter := mounter s |}.

(** [ExecCmd]: split the command line into fields, start the first
    with the others as arguments, return the exit code, the output
    lines joined by newlines and the launcher's error.  On a line
    with no field the call panics on [cs[1:]], with Go's run-time
    error for slice bounds [1:0].  The command line is recorded in
    the trace when the process is started. *)
Definition ExecCmd (cmdStr : string) : Go (Z * string * option error) :=
  fun s =>
    match Fields cmdStr with
    | [] => Panic (PanicRuntime "slice bounds out of range [1:0]") s
    | c0 :: rest =>
        let '(w, st) := cmd_Start (world s) c0 rest in
        Ok (Exit st,
            Join (Stdout st) (String newline EmptyString),
            option_map ErrExec (Error st))
           {| world := w; trace := trace s ++ [cmdStr];
              mounter := mounter s |}
    end.

Definition GetCallerByFS (fs0 : FileSystemType) : Go Caller_ :=
  if String.eqb fs0 FsExt2 then ret CMount
  else if String.eqb fs0 FsExt3 then ret CMount
  else if String.eqb fs0 FsExt4 then ret CMount
  else if String.eqb fs0 FsXFS_ then ret CMount
  else if String.eqb fs0 FsNTFs then ret CNTFs3g
  else panic (PanicError ErrUnsFs).

Definition QueryDeviceUUID (dev0 : string) : Go (string * option error) :=
  ' (r, out, _) <- ExecCmd (CBlkID ++ " | grep " ++ dev0) ;;
  if negb (r =? 0) then ret (EmptyString, Some ErrDevUUID)
  else
    let out := ToLower out in
    let us := regexp.FindStringSubmatch out in
    if (2 <=? length us)%nat then ret (nth 1 us EmptyString, None)
    else ret (EmptyString, Some ErrDevUUID).

Definition UMount (path0 : string) : Go (option error) :=
  ' (r, _, _) <- ExecCmd (CUMount ++ " " ++ path0) ;;
  if negb (r =? 0) then ret (Some ErrUMount) else ret None.

(** The tool [Mount] picks (its local [__c]). *)
Definition Mount_caller (fs0 : FileSystemType) : Caller_ :=
  if String.eqb fs0 FsNTFs then CNTFs3g else CMount.

(** The line [Mount] formats: tool, options, device, path. *)
Definition Mount_cmd (fs0 : FileSystemType) (dev0 path0 ctx0 : string)
  : string :=
  Mount_caller fs0 ++ " " ++ ctx0 ++ " " ++ dev0 ++ " " ++ path0.

Definition Mount (fs0 : FileSystemType) (dev0 path0 ctx0 : string)
  : Go (option error) :=
  ' (r, _, _) <- ExecCmd (Mount_cmd fs0 dev0 path0 ctx0) ;;
  if negb (r =? 0) then ret (Some ErrMount) else ret None.

Definition IsMount (path0 : string) : Go bool :=
  ' (r, out, _) <- ExecCmd CMount ;;
  if negb (r =? 0) then panic (PanicCaller CMount)
  else if Contains out (path0 ++ " ") then ret true
  else ret false.

Definition GenExtDevUUID (dev0 : string) : Go (option error) :=
  ' (r, _, _) <- ExecCmd (CTune2FS ++ " -U random " ++ dev0) ;;
  if negb (r =? 0) then ret (Some ErrGenUUID) else ret None.

Definition GenXFSDevUUID (uuid0 dev0 : string) : Go (option error) :=
  ' (r, _, _) <- ExecCmd (CXFSAdmin ++ " -U " ++ uuid0 ++ " " ++ dev0) ;;
  if negb (r =? 0) then ret (Some ErrGenUUID) else ret None.

(** *** The methods of [DevMounter] *)

Definition changeEXT : Go (option error) :=
  m <- get_m ;;
  err <- GenExtDevUUID (dev (args_ m)) ;;
  match err with
  | Some e => ret (Some e)
  | None =>
      m <- get_m ;;
      ' (u, err) <- QueryDeviceUUID (dev (args_ m)) ;;
      _ <- set_uuid u ;;
      match err with
      | Some _ => ret (Some ErrQueryUUID)
      | None => ret None
      end
  end.

(** The closure [__registerXFSDev] of [changeXFS]; it reads [m.fs]
    and leaves its own first parameter unused. *)
Definition registerXFSDev (fs0 : FileSystemType) (dev0 path0 : string)
  : Go (option error) :=
  m <- get_m ;;
  err_ <- Mount (fs m) dev0 path0 "-o rw,nouuid" ;;
  match err_ with
  | Some e => ret (Some e)
  | None =>
      err_ <- UMount dev0 ;;
      match err_ with
      | Some e => ret (Some e)
      | None => ret None
      end
  end.

Definition changeXFS : Go (option error) :=
  u <- new_uuid ;;
  m <- get_m ;;
  err <- registerXFSDev (fs m) (dev (args_ m)) (path_ (args_ m)) ;;
  match err with
  | Some e => ret (Some e)
  | None =>
      m <- get_m ;;
      err <- GenXFSDevUUID u (dev (args_ m)) ;;
      match err with
      | Some e => ret (Some e)
      | None => ret None
      end
  end.

Definition changeNTFs : Go (option error) := ret None.

Definition ChangeDevUUID : Go (option error) :=
  m <- get_m ;;
  if HasPrefix (fs m) "ext" then changeEXT
  else if String.eqb (fs m) FsNTFs then changeNTFs
  else if String.eqb (fs m) FsXFS_ then changeXFS
  else ret (Some ErrUnsFs).

Definition MountDevice : Go (option error) :=
  m <- get_m ;;
  Mount (fs m) (dev (args_ m)) (path_ (args_ m)) EmptyString.

(** [IsMount(dev) || IsMount(path_)]: the right operand is
    evaluated only when the left one is false. *)
Definition Check : Go (option error) :=
  m <- get_m ;;
  b <- IsMount (dev (args_ m)) ;;
  if b then ret None
  else
    m <- get_m ;;
    b <- IsMount (path_ (args_ m)) ;;
    if b then ret None else ret (Some ErrMount).

(** The types [bindFS] tries, in the order of its loop. *)
Definition fs_order : list FileSystemType :=
  [FsExt2; FsExt3; FsExt4; FsXFS_; FsNTFs].

(** The loop of [bindFS]: store the first type whose name [out]
    contains and return nil; past the last one, [ErrUnKFs]. *)
Fixpoint bindFS_loop (out : string) (vs : list FileSystemType)
  : Go (option error) :=
  match vs with
  | [] => ret (Some ErrUnKFs)
  | v :: rest =>
      if Contains out v then (_ <- set_fs v ;; ret None)
      else bindFS_loop out rest
  end.

Definition bindFS : Go (option error) :=
  m <- get_m ;;
  ' (r, out, err_) <- ExecCmd (CFile ++ " -sL " ++ dev (args_ m)) ;;
  let out := ToLower out in
  if negb (r =? 0) then ret err_
  else bindFS_loop out fs_order.

Definition bindCaller : Go (option error) :=
  m <- get_m ;;
  c <- GetCallerByFS (fs m) ;;
  _ <- set_caller c ;;
  ret None.

Definition BindArgs : Go (option error) :=
  err <- bindFS ;;
  match err with
  | Some e => ret (Some e)
  | None =>
      err <- bindCaller ;;
      match err with
      | Some e => ret (Some e)
      | None => ret None
      end
  end.

Definition Start : Go (option error) :=
  err <- BindArgs ;;
  match err with
  | Some e => ret (Some e)
  | None =>
      err <- ChangeDevUUID ;;
      match err with
      | Some e => ret (Some e)
      | None =>
          err <- MountDevice ;;
          match err with
          | Some e => ret (Some e)
          | None =>
              err <- Check ;;
              match err with
              | Some e => ret (Some e)
              | None => ret None
              end
          end
      end
  end.

(** [conservative c]: however [c] ends, the receiver's [args_] are
    what they were and the trace has only grown at its end. *)
Definition conservative {A : Type} (c : Go A) : Prop :=
  forall s,
    args_ (mounter (final_state (c s))) = args_ (mounter s)
    /\ exists t, trace (final_state (c s)) = (trace s ++ t)%list.

(** [blank s]: every byte of [s] is white space (so also the empty
    line). *)
Fixpoint blank (s : string) : bool :=
  match s with
  | EmptyString => true
  | String c t => (isSpace c && blank t)%bool
  end.


(** The three tests of [ChangeDevUUID], for a type that passes none. *)
Definition unsupported (f : FileSystemType) : Prop :=
  HasPrefix f "ext" = false /\ f <> FsNTFs /\ f <> FsXFS_.

(** An ASCII byte that is no white space. *)
Definition ascii_not_space (c : ascii) : bool :=
  (Nat.ltb (nat_of_ascii c) 128 && negb (isSpace c))%bool.

(** [all_bytes p s]: every byte of [s] passes [p]. *)
Fixpoint all_bytes (p : ascii -> bool) (s : string) : bool :=
  match s with
  | EmptyString => true
  | String c t => (p c && all_bytes p t)%bool
  end.

(** An ASCII capital letter. *)
Definition is_upper (c : ascii) : bool :=
  (Nat.leb 65 (nat_of_ascii c) && Nat.leb (nat_of_ascii c) 90)%bool.

(** A byte a recorded UUID can hold: no capital letter, no double
    quote, no newline. *)
Definition uuid_byte (c : ascii) : bool :=
  (negb (is_upper c) && negb (Ascii.eqb c dquote)
   && negb (Ascii.eqb c newline))%bool.

(** In the words of the pattern: the text [t] begins with a match,
    the key, then bytes that hold no newline, then a double quote. *)
Definition starts_uuid_match (t : string) : Prop :=
  exists u post,
    t = regexp.uuid_key ++ u ++ String dquote post
    /\ all_bytes (fun c => negb (Ascii.eqb c newline)) u = true.

(** [starts_at_most n c]: however [c] ends, it has appended at most
    [n] lines to the trace, so it has started at most [n] processes. *)
Definition starts_at_most {A : Type} (n : nat) (c : Go A) : Prop :=
  forall s, exists t,
    trace (final_state (c s)) = (trace s ++ t)%list /\ (length t <= n)%nat.


(** Two mounters, two states, two outcomes that differ at most in the
    stored tool [caller_]. *)
Definition mounter_but_caller (m m' : DevMounter Ctx) : Prop :=
  args_ m = args_ m' /\ fs m = fs m' /\ uuid_ m = uuid_ m'.

Definition same_but_caller (s s' : St) : Prop :=
  world s = world s' /\ trace s = trace s'
  /\ mounter_but_caller (mounter s) (mounter s').

Definition agree_but_caller {A : Type} (r r' : Result St A) : Prop :=
  match r, r' with
  | Ok a s, Ok a' s' => a = a' /\ same_but_caller s s'
  | Panic v s, Panic v' s' => v = v' /\ same_but_caller s s'
  | _, _ => False
  end.

(** [blind c]: [c] does not read [caller_]. *)
Definition blind {A : Type} (c : Go A) : Prop :=
  forall s s', same_but_caller s s' -> agree_but_caller (c s) (c s').


(** ** Facts about the library functions *)

Lemma HasPrefix_app (p t : string) : HasPrefix (p ++ t) p = true.
Proof.
  induction p as [|a p IH]; simpl.
  - destruct t; reflexivity.
  - now rewrite Ascii.eqb_refl, IH.
Qed.

Lemma HasPrefix_inv (s p : string) :
  HasPrefix s p = true -> exists t, s = p ++ t.
Proof.
  revert s; induction p as [|a p IH]; intros s H.
  - exists s; reflexivity.
  - destruct s as [|c s]; simpl in H; [discriminate|].
    apply andb_true_iff in H as [Hc Hs].
    apply Ascii.eqb_eq in Hc; subst c.
    destruct (IH _ Hs) as [t ->]; exists t; reflexivity.
Qed.

Lemma HasPrefix_nil (s : string) : HasPrefix s EmptyString = true.
Proof. destruct s; reflexivity. Qed.

Lemma Contains_unfold (s sub : string) :
  Contains s sub =
  (HasPrefix s sub
   || match s with
      | EmptyString => false
      | String _ t => Contains t sub
      end)%bool.
Proof. destruct s; reflexivity. Qed.

(** [Contains] is the substring relation. *)
Lemma Contains_spec (s sub : string) :
  Contains s sub = true <-> exists pre post, s = pre ++ sub ++ post.
Proof.
  split.
  - induction s as [|c s IH]; rewrite Contains_unfold; intros H;
      apply orb_true_iff in H as [H|H].
    + apply HasPrefix_inv in H as [t ->]. exists EmptyString, t; reflexivity.
    + discriminate.
    + apply HasPrefix_inv in H as [t ->]. exists EmptyString, t; reflexivity.
    + destruct (IH H) as (pre & post & ->).
      exists (String c pre), post; reflexivity.
  - intros (pre & post & ->).
    induction pre as [|c pre IH]; rewrite Contains_unfold; apply orb_true_iff.
    + left; exact (HasPrefix_app sub post).
    + right; exact IH.
Qed.

Lemma fields_from_tok (c : ascii) (tok s : string) :
  fields_from (String c tok) s <> [].
Proof.
  revert c tok; induction s as [|a s IH]; intros c tok; simpl.
  - discriminate.
  - destruct (isSpace a); [discriminate | apply IH].
Qed.

(** A line that starts with a byte that is no white space has a field. *)
Lemma Fields_head (c : ascii) (t : string) :
  isSpace c = false -> Fields (String c t) <> [].
Proof.
  intros H; unfold Fields; simpl; rewrite H; simpl; apply fields_from_tok.
Qed.

(** ** Running a command *)

(** [ExecCmd] starts a process for every line whose first byte is no
    white space; it records the line and leaves the mounter alone. *)
Lemma ExecCmd_runs (c : ascii) (t : string) (s : St) :
  isSpace c = false ->
  exists r out e w,
    ExecCmd (String c t) s
    = Ok (r, out, e)
         {| world := w; trace := trace s ++ [String c t];
            mounter := mounter s |}.
Proof.
  intros H; unfold ExecCmd.
  destruct (Fields (String c t)) as [|c0 rest] eqn:E.
  - now apply Fields_head in E.
  - destruct (cmd_Start (world s) c0 rest) as [w st].
    now exists (Exit st), (Join (Stdout st) (String newline EmptyString)),
      (option_map ErrExec (Error st)), w.
Qed.

(** An [ExecCmd] that returned has recorded its line and kept the mounter. *)
Lemma ExecCmd_ok_inv (cmdStr : string) (s s1 : St) res :
  ExecCmd cmdStr s = Ok res s1 ->
  trace s1 = (trace s ++ [cmdStr])%list /\ mounter s1 = mounter s.
Proof.
  unfold ExecCmd; destruct (Fields cmdStr); [discriminate|].
  destruct (cmd_Start _ _ _); intros H; inversion H; subst; now simpl.
Qed.

(** ** The free functions in terms of the command they run *)

Lemma Mount_eq fs0 dev0 path0 ctx0 (s s1 : St) r out e :
  ExecCmd (Mount_cmd fs0 dev0 path0 ctx0) s = Ok (r, out, e) s1 ->
  Mount fs0 dev0 path0 ctx0 s
  = Ok (if r =? 0 then None else Some ErrMount) s1.
Proof.
  intros H; unfold Mount, bind; rewrite H; now destruct (r =? 0).
Qed.

Lemma UMount_eq path0 (s s1 : St) r out e :
  ExecCmd (CUMount ++ " " ++ path0) s = Ok (r, out, e) s1 ->
  UMount path0 s = Ok (if r =? 0 then None else Some ErrUMount) s1.
Proof.
  intros H; unfold UMount, bind; rewrite H; now destruct (r =? 0).
Qed.

Lemma GenExtDevUUID_eq dev0 (s s1 : St) r out e :
  ExecCmd (CTune2FS ++ " -U random " ++ dev0) s = Ok (r, out, e) s1 ->
  GenExtDevUUID dev0 s = Ok (if r =? 0 then None else Some ErrGenUUID) s1.
Proof.
  intros H; unfold GenExtDevUUID, bind; rewrite H; now destruct (r =? 0).
Qed.

Lemma GenXFSDevUUID_eq uuid0 dev0 (s s1 : St) r out e :
  ExecCmd (CXFSAdmin ++ " -U " ++ uuid0 ++ " " ++ dev0) s = Ok (r, out, e) s1 ->
  GenXFSDevUUID uuid0 dev0 s
  = Ok (if r =? 0 then None else Some ErrGenUUID) s1.
Proof.
  intros H; unfold GenXFSDevUUID, bind; rewrite H; now destruct (r =? 0).
Qed.

Lemma IsMount_eq path0 (s s1 : St) r out e :
  ExecCmd CMount s = Ok (r, out, e) s1 ->
  IsMount path0 s
  = if r =? 0 then Ok (Contains out (path0 ++ " ")) s1
    else Panic (PanicCaller CMount) s1.
Proof.
  intros H; unfold IsMount, bind; rewrite H.
  destruct (r =? 0); simpl; [|reflexivity].
  now destruct (Contains out (path0 ++ " ")).
Qed.

Lemma QueryDeviceUUID_eq dev0 (s s1 : St) r out e :
  ExecCmd (CBlkID ++ " | grep " ++ dev0) s = Ok (r, out, e) s1 ->
  QueryDeviceUUID dev0 s
  = Ok (if r =? 0 then
          match regexp.find_uuid (ToLower out) with
          | Some u => (u, None)
          | None => (EmptyString, Some ErrDevUUID)
          end
        else (EmptyString, Some ErrDevUUID)) s1.
Proof.
  intros H; unfold QueryDeviceUUID, bind; rewrite H.
  destruct (r =? 0); simpl; [|reflexivity].
  unfold regexp.FindStringSubmatch.
  now destruct (regexp.find_uuid (ToLower out)).
Qed.

Lemma Mount_cmd_runs fs0 dev0 path0 ctx0 (s : St) :
  exists r out e w,
    ExecCmd (Mount_cmd fs0 dev0 path0 ctx0) s
    = Ok (r, out, e)
         {| world := w;
            trace := trace s ++ [Mount_cmd fs0 dev0 path0 ctx0];
            mounter := mounter s |}.
Proof.
  unfold Mount_cmd, Mount_caller.
  destruct (String.eqb fs0 FsNTFs); simpl; now apply ExecCmd_runs.
Qed.

Lemma eqb_neq_Z (r : Z) : r <> 0 -> (r =? 0) = false.
Proof. intros H; now apply Z.eqb_neq. Qed.

(** ** The tool of a file system (C7) *)

(** C7: [GetCallerByFS] returns the generic mount tool for ext2, ext3,
    ext4 and xfs, the NTFS tool for ntfs, and panics with [ErrUnsFs] on
    every other value; [Mount] runs ntfs-3g for ntfs and mount for every
    other type, so on the five supported types it runs the tool
    [GetCallerByFS] names, and it fails with [ErrMount] exactly when
    that tool exits nonzero. *)
Theorem GetCallerByFS_and_Mount_tool (fs0 : FileSystemType) (s : St) :
  (In fs0 [FsExt2; FsExt3; FsExt4; FsXFS_] ->
   GetCallerByFS fs0 s = Ok CMount s)
  /\ (fs0 = FsNTFs -> GetCallerByFS fs0 s = Ok CNTFs3g s)
  /\ (~ In fs0 [FsExt2; FsExt3; FsExt4; FsXFS_; FsNTFs] ->
      GetCallerByFS fs0 s = Panic (PanicError ErrUnsFs) s)
  /\ (In fs0 [FsExt2; FsExt3; FsExt4; FsXFS_; FsNTFs] ->
      GetCallerByFS fs0 s = Ok (Mount_caller fs0) s)
  /\ (forall dev0 path0 ctx0,
        let tool := if String.eqb fs0 "ntfs" then "ntfs-3g" else "mount" in
        let line := tool ++ " " ++ ctx0 ++ " " ++ dev0 ++ " " ++ path0 in
        exists r out e s1,
          ExecCmd line s = Ok (r, out, e) s1
          /\ trace s1 = (trace s ++ [line])%list
          /\ Mount fs0 dev0 path0 ctx0 s
             = Ok (if r =? 0 then None else Some ErrMount) s1).
Proof.
  repeat split.
  - simpl; intros [<-|[<-|[<-|[<-|[]]]]]; reflexivity.
  - intros ->; reflexivity.
  - intros H; unfold GetCallerByFS.
    destruct (String.eqb_spec fs0 FsExt2) as [->|_]; [exfalso; apply H; simpl; tauto|].
    destruct (String.eqb_spec fs0 FsExt3) as [->|_]; [exfalso; apply H; simpl; tauto|].
    destruct (String.eqb_spec fs0 FsExt4) as [->|_]; [exfalso; apply H; simpl; tauto|].
    destruct (String.eqb_spec fs0 FsXFS_) as [->|_]; [exfalso; apply H; simpl; tauto|].
    destruct (String.eqb_spec fs0 FsNTFs) as [->|_]; [exfalso; apply H; simpl; tauto|].
    reflexivity.
  - simpl; intros [<-|[<-|[<-|[<-|[<-|[]]]]]]; reflexivity.
  - intros dev0 path0 ctx0 tool line.
    destruct (Mount_cmd_runs fs0 dev0 path0 ctx0 s) as (r & out & e & w & H).
    eexists r, out, e, _; split; [exact H|]; split; [reflexivity|].
    now apply Mount_eq with (out := out) (e := e).
Qed.

(** ** The mount listing: [IsMount] and [Check] (C5, C8, C9) *)

Lemma listing_runs (s : St) :
  exists r out e w,
    ExecCmd CMount s
    = Ok (r, out, e)
         {| world := w; trace := trace s ++ [CMount]; mounter := mounter s |}.
Proof. now apply ExecCmd_runs. Qed.

(** What [IsMount] computes: the listing command always runs; when it
    exits 0 with output [out], [IsMount q] is true exactly when [q]
    followed by one space occurs somewhere in [out], at any offset. *)
Theorem IsMount_true_iff_followed_by_space (q : string) (s : St) :
  exists r out e s1,
    ExecCmd CMount s = Ok (r, out, e) s1
    /\ trace s1 = (trace s ++ ["mount"])%list
    /\ (r = 0 ->
        IsMount q s = Ok (Contains out (q ++ " ")) s1
        /\ (Contains out (q ++ " ") = true
            <-> exists pre post, out = pre ++ (q ++ " ") ++ post)).
Proof.
  destruct (listing_runs s) as (r & out & e & w & H).
  eexists r, out, e, _; split; [exact H|]; split; [reflexivity|].
  intros ->; split; [|apply Contains_spec].
  now rewrite (IsMount_eq q _ _ _ _ _ H).
Qed.

(** What [Check] does after a first listing that exited 0. *)
Lemma Check_eq (s s1 : St) out1 e1 :
  ExecCmd CMount s = Ok (0, out1, e1) s1 ->
  Check s
  = if Contains out1 (dev (args_ (mounter s)) ++ " ") then Ok None s1
    else
      match IsMount (path_ (args_ (mounter s))) s1 with
      | Ok true s2 => Ok None s2
      | Ok false s2 => Ok (Some ErrMount) s2
      | Panic v s2 => Panic v s2
      end.
Proof.
  intros H; destruct (ExecCmd_ok_inv _ _ _ _ H) as [_ Hm].
  unfold Check, bind, get_m.
  rewrite (IsMount_eq _ _ _ _ _ _ H); simpl.
  destruct (Contains out1 _); [reflexivity|].
  rewrite Hm.
  destruct (IsMount _ s1) as [[|] s2|v s2]; reflexivity.
Qed.

Lemma Check_panics (s s1 : St) r out e :
  ExecCmd CMount s = Ok (r, out, e) s1 -> r <> 0 ->
  Check s = Panic (PanicCaller CMount) s1.
Proof.
  intros H Hr; unfold Check, bind, get_m.
  now rewrite (IsMount_eq _ _ _ _ _ _ H), (eqb_neq_Z _ Hr).
Qed.

(** [Start] once its first three stages have returned nil. *)
Lemma Start_reaches_Check (s sa sb sc : St) :
  BindArgs s = Ok None sa -> ChangeDevUUID sa = Ok None sb ->
  MountDevice sb = Ok None sc ->
  Start s
  = match Check sc with
    | Ok (Some e) sd => Ok (Some e) sd
    | Ok None sd => Ok None sd
    | Panic v sd => Panic v sd
    end.
Proof.
  intros Ha Hb Hc; unfold Start, bind; rewrite Ha, Hb, Hc.
  destruct (Check sc) as [[e|] sd|v sd]; reflexivity.
Qed.


(** C9: the listing command always runs, and when it exits nonzero
    [IsMount] panics with the tool name, whatever is asked; so does
    [Check], and so does a run of [Start] that reaches [Check]. *)
Theorem IsMount_panics_when_listing_fails (s : St) :
  exists r out e s1,
    ExecCmd CMount s = Ok (r, out, e) s1
    /\ (r <> 0 ->
        (forall q, IsMount q s = Panic (PanicCaller CMount) s1)
        /\ Check s = Panic (PanicCaller CMount) s1
        /\ (forall s0 sa sb,
              BindArgs s0 = Ok None sa ->
              ChangeDevUUID sa = Ok None sb ->
              MountDevice sb = Ok None s ->
              Start s0 = Panic (PanicCaller CMount) s1)).
Proof.
  destruct (listing_runs s) as (r & out & e & w & H).
  eexists r, out, e, _; split; [exact H|].
  intros Hr; repeat split.
  - intros q. now rewrite (IsMount_eq q _ _ _ _ _ H), (eqb_neq_Z _ Hr).
  - exact (Check_panics _ _ _ _ _ H Hr).
  - intros s0 sa sb Ha Hb Hc.
    now rewrite (Start_reaches_Check _ _ _ _ Ha Hb Hc),
      (Check_panics _ _ _ _ _ H Hr).
Qed.

(** ** What every call leaves alone *)

Lemma conservative_ret {A : Type} (a : A) : conservative (ret a).
Proof.
  intros s; split; [reflexivity|].
  exists []; simpl; now rewrite app_nil_r.
Qed.

Lemma conservative_panic {A : Type} (v : panic_value) :
  conservative (@panic St A v).
Proof.
  intros s; split; [reflexivity|].
  exists []; simpl; now rewrite app_nil_r.
Qed.

Lemma conservative_bind {A B : Type} (c : Go A) (k : A -> Go B) :
  conservative c -> (forall a, conservative (k a)) -> conservative (bind c k).
Proof.
  intros Hc Hk s; unfold bind.
  destruct (Hc s) as [Ha [t Ht]].
  destruct (c s) as [a s'|v s']; simpl in *.
  - destruct (Hk a s') as [Ha' [t' Ht']]. split.
    + now rewrite Ha'.
    + exists (t ++ t')%list. now rewrite Ht', Ht, app_assoc.
  - split; [exact Ha | now exists t].
Qed.

(** A call that changes neither the trace nor the arguments. *)
Lemma conservative_quiet {A : Type} (c : Go A) :
  (forall s, args_ (mounter (final_state (c s))) = args_ (mounter s)
             /\ trace (final_state (c s)) = trace s) ->
  conservative c.
Proof.
  intros H s; destruct (H s) as [Ha Ht]; split; [exact Ha|].
  exists []; now rewrite app_nil_r.
Qed.

Lemma conservative_get_m : conservative get_m.
Proof. apply conservative_quiet; intros s; now split. Qed.

Lemma conservative_set_fs v : conservative (set_fs v).
Proof. apply conservative_quiet; intros s; now split. Qed.

Lemma conservative_set_caller c : conservative (set_caller c).
Proof. apply conservative_quiet; intros s; now split. Qed.

Lemma conservative_set_uuid u : conservative (set_uuid u).
Proof. apply conservative_quiet; intros s; now split. Qed.

Lemma conservative_new_uuid : conservative new_uuid.
Proof.
  apply conservative_quiet; intros s; unfold new_uuid.
  now destruct (uuid_New (world s)).
Qed.

Lemma conservative_ExecCmd cmdStr : conservative (ExecCmd cmdStr).
Proof.
  intros s; unfold ExecCmd; destruct (Fields cmdStr).
  - split; [reflexivity|]. exists []; simpl; now rewrite app_nil_r.
  - destruct (cmd_Start _ _ _); split; [reflexivity|].
    now exists [cmdStr].
Qed.

Create HintDb frame.
#[local] Hint Resolve conservative_ret conservative_panic conservative_get_m
  conservative_set_fs conservative_set_caller conservative_set_uuid
  conservative_new_uuid conservative_ExecCmd : frame.

(** One step of a frame proof: split a bind, a tuple or a test. *)
Ltac frame_step :=
  match goal with
  | |- conservative (bind _ _) => apply conservative_bind
  | |- forall _, _ => intro
  | x : (_ * _)%type |- _ => destruct x
  | |- conservative (if ?b then _ else _) => destruct b
  | |- conservative (match ?x with Some _ => _ | None => _ end) => destruct x
  | |- conservative _ => solve [auto with frame]
  end.
Ltac frame := repeat frame_step.

Lemma conservative_GetCallerByFS fs0 : conservative (GetCallerByFS fs0).
Proof. unfold GetCallerByFS; frame. Qed.

Lemma conservative_QueryDeviceUUID d : conservative (QueryDeviceUUID d).
Proof. unfold QueryDeviceUUID; frame. Qed.

Lemma conservative_UMount p : conservative (UMount p).
Proof. unfold UMount; frame. Qed.

Lemma conservative_Mount fs0 d p c : conservative (Mount fs0 d p c).
Proof. unfold Mount; frame. Qed.

Lemma conservative_IsMount p : conservative (IsMount p).
Proof. unfold IsMount; frame. Qed.

Lemma conservative_GenExtDevUUID d : conservative (GenExtDevUUID d).
Proof. unfold GenExtDevUUID; frame. Qed.

Lemma conservative_GenXFSDevUUID u d : conservative (GenXFSDevUUID u d).
Proof. unfold GenXFSDevUUID; frame. Qed.

#[local] Hint Resolve conservative_GetCallerByFS conservative_QueryDeviceUUID
  conservative_UMount conservative_Mount conservative_IsMount
  conservative_GenExtDevUUID conservative_GenXFSDevUUID : frame.

Lemma conservative_changeEXT : conservative changeEXT.
Proof. unfold changeEXT; frame. Qed.

Lemma conservative_registerXFSDev fs0 d p :
  conservative (registerXFSDev fs0 d p).
Proof. unfold registerXFSDev; frame. Qed.

#[local] Hint Resolve conservative_changeEXT conservative_registerXFSDev
  : frame.

Lemma conservative_changeXFS : conservative changeXFS.
Proof. unfold changeXFS; frame. Qed.

Lemma conservative_changeNTFs : conservative changeNTFs.
Proof. unfold changeNTFs; frame. Qed.

#[local] Hint Resolve conservative_changeXFS conservative_changeNTFs : frame.

Lemma conservative_ChangeDevUUID : conservative ChangeDevUUID.
Proof. unfold ChangeDevUUID; frame. Qed.

Lemma conservative_MountDevice : conservative MountDevice.
Proof. unfold MountDevice; frame. Qed.

Lemma conservative_Check : conservative Check.
Proof. unfold Check; frame. Qed.

Lemma conservative_bindFS_loop out vs : conservative (bindFS_loop out vs).
Proof. induction vs as [|v vs IH]; simpl; frame. Qed.

#[local] Hint Resolve conservative_bindFS_loop : frame.

Lemma conservative_bindFS : conservative bindFS.
Proof. unfold bindFS; frame. Qed.

Lemma conservative_bindCaller : conservative bindCaller.
Proof. unfold bindCaller; frame. Qed.

#[local] Hint Resolve conservative_bindFS conservative_bindCaller : frame.

Lemma conservative_BindArgs : conservative BindArgs.
Proof. unfold BindArgs; frame. Qed.

#[local] Hint Resolve conservative_BindArgs conservative_ChangeDevUUID
  conservative_MountDevice conservative_Check : frame.

Lemma conservative_Start : conservative Start.
Proof. unfold Start; frame. Qed.

(** ** The orchestrator (C1) *)

(** C1: [Start] runs [BindArgs], then [ChangeDevUUID] from the state
    [BindArgs] left, then [MountDevice], then [Check]; the first stage
    that returns an error ends the run: [Start] returns that very error
    in the very state the stage left, so no later stage has run; a
    panic of a stage ends the run the same way; with four nil results
    [Start] returns nil.  A stage only appends the commands it runs to
    the trace, so the commands of the stages stand in the trace in the
    order of the stages. *)
Theorem Start_stages_in_order (s : St) :
  match BindArgs s with
  | Panic v s1 => Start s = Panic v s1
  | Ok (Some e) s1 => Start s = Ok (Some e) s1
  | Ok None s1 =>
      match ChangeDevUUID s1 with
      | Panic v s2 => Start s = Panic v s2
      | Ok (Some e) s2 => Start s = Ok (Some e) s2
      | Ok None s2 =>
          match MountDevice s2 with
          | Panic v s3 => Start s = Panic v s3
          | Ok (Some e) s3 => Start s = Ok (Some e) s3
          | Ok None s3 =>
              match Check s3 with
              | Panic v s4 => Start s = Panic v s4
              | Ok (Some e) s4 => Start s = Ok (Some e) s4
              | Ok None s4 => Start s = Ok None s4
              end
          end
      end
  end
  /\ forall stage : Go (option error),
       In stage [BindArgs; ChangeDevUUID; MountDevice; Check] ->
       forall s0, exists t,
         trace (final_state (stage s0)) = (trace s0 ++ t)%list.
Proof.
  split.
  - unfold Start, bind.
    destruct (BindArgs s) as [[e1|] s1|v1 s1]; try reflexivity.
    destruct (ChangeDevUUID s1) as [[e2|] s2|v2 s2]; try reflexivity.
    destruct (MountDevice s2) as [[e3|] s3|v3 s3]; try reflexivity.
    destruct (Check s3) as [[e4|] s4|v4 s4]; reflexivity.
  - intros stage Hin s0; simpl in Hin.
    destruct Hin as [<-|[<-|[<-|[<-|[]]]]].
    + apply conservative_BindArgs.
    + apply conservative_ChangeDevUUID.
    + apply conservative_MountDevice.
    + apply conservative_Check.
Qed.

(** ** The stored arguments are a frame (C10) *)

(** A mounter with the arguments of a fresh one is the fresh one with
    its three other fields assigned. *)
Lemma mounter_of_args (m : DevMounter Ctx) dev0 path0 ctx0 :
  args_ m = {| dev := dev0; path_ := path0; ctx := ctx0 |} ->
  m = with_uuid (uuid_ m)
        (with_caller (caller_ m)
           (with_fs (fs m) (NewMounterWithArgs dev0 path0 ctx0))).
Proof. destruct m as [a c f u]; simpl; now intros ->. Qed.

(** C10: the constructor stores its three arguments; each of
    [BindArgs], [ChangeDevUUID], [MountDevice], [Check] and [Start],
    run from any state and however it ends (nil, an error or a panic),
    leaves the receiver's [args_] as it found them; so in a run on a
    fresh mounter the three arguments are the constructor's after
    every stage and after [Start], and the mounter differs from the
    fresh one at most in [fs], [caller_] and [uuid_]. *)
Theorem args_never_mutated (dev0 path0 : string) (ctx0 : Ctx) :
  args_ (NewMounterWithArgs dev0 path0 ctx0)
  = {| dev := dev0; path_ := path0; ctx := ctx0 |}
  /\ (forall stage : Go (option error),
        In stage [BindArgs; ChangeDevUUID; MountDevice; Check; Start] ->
        forall s, args_ (mounter (final_state (stage s))) = args_ (mounter s))
  /\ (forall w tr,
        let s0 := {| world := w; trace := tr;
                     mounter := NewMounterWithArgs dev0 path0 ctx0 |} in
        let s1 := final_state (BindArgs s0) in
        let s2 := final_state (ChangeDevUUID s1) in
        let s3 := final_state (MountDevice s2) in
        let s4 := final_state (Check s3) in
        forall s', In s' [s1; s2; s3; s4; final_state (Start s0)] ->
          let m' := mounter s' in
          dev (args_ m') = dev0 /\ path_ (args_ m') = path0
          /\ ctx (args_ m') = ctx0
          /\ m' = with_uuid (uuid_ m')
                    (with_caller (caller_ m')
                       (with_fs (fs m')
                          (NewMounterWithArgs dev0 path0 ctx0)))).
Proof.
  split; [reflexivity|]; split.
  - intros stage Hin s; simpl in Hin.
    destruct Hin as [<-|[<-|[<-|[<-|[<-|[]]]]]].
    + apply conservative_BindArgs.
    + apply conservative_ChangeDevUUID.
    + apply conservative_MountDevice.
    + apply conservative_Check.
    + apply conservative_Start.
  - intros w tr s0 s1 s2 s3 s4 s' Hin m'.
    assert (H1 : args_ (mounter s1) = args_ (mounter s0))
      by apply conservative_BindArgs.
    assert (H2 : args_ (mounter s2) = args_ (mounter s1))
      by apply conservative_ChangeDevUUID.
    assert (H3 : args_ (mounter s3) = args_ (mounter s2))
      by apply conservative_MountDevice.
    assert (H4 : args_ (mounter s4) = args_ (mounter s3))
      by apply conservative_Check.
    assert (H5 : args_ (mounter (final_state (Start s0)))
                 = args_ (mounter s0)) by apply conservative_Start.
    assert (H : args_ m' = {| dev := dev0; path_ := path0; ctx := ctx0 |}).
    { assert (H0 : args_ (mounter s0)
                   = {| dev := dev0; path_ := path0; ctx := ctx0 |})
        by reflexivity.
      unfold m'. simpl in Hin.
      destruct Hin as [<-|[<-|[<-|[<-|[<-|[]]]]]]; congruence. }
    rewrite H; simpl. repeat split.
    now apply mounter_of_args.
Qed.

(** ** Detection of the file system (C2, C6) *)

Lemma bindFS_loop_first out pre v post (s : St) :
  (forall u, In u pre -> Contains out u = false) ->
  Contains out v = true ->
  bindFS_loop out (pre ++ v :: post) s = Ok None (upd_mounter (with_fs v) s).
Proof.
  intros Hpre Hv; induction pre as [|u pre IH]; simpl.
  - now rewrite Hv.
  - rewrite (Hpre u (or_introl eq_refl)).
    apply IH; intros u' Hu'; apply Hpre; now right.
Qed.

Lemma bindFS_loop_none out vs (s : St) :
  (forall u, In u vs -> Contains out u = false) ->
  bindFS_loop out vs s = Ok (Some ErrUnKFs) s.
Proof.
  intros H; induction vs as [|u vs IH]; simpl; [reflexivity|].
  rewrite (H u (or_introl eq_refl)).
  apply IH; intros u' Hu'; apply H; now right.
Qed.

Lemma fs_order_NoDup : NoDup fs_order.
Proof.
  unfold fs_order.
  repeat (constructor; [simpl; intuition discriminate|]).
  constructor.
Qed.

Lemma probe_runs (d : string) (s : St) :
  exists r out e w,
    ExecCmd (CFile ++ " -sL " ++ d) s
    = Ok (r, out, e)
         {| world := w; trace := trace s ++ [CFile ++ " -sL " ++ d];
            mounter := mounter s |}.
Proof. simpl; now apply ExecCmd_runs. Qed.

(** [bindFS] in terms of the probe it runs. *)
Lemma bindFS_eq (s s1 : St) r out e :
  ExecCmd (CFile ++ " -sL " ++ dev (args_ (mounter s))) s
  = Ok (r, out, e) s1 ->
  bindFS s
  = if r =? 0 then bindFS_loop (ToLower out) fs_order s1 else Ok e s1.
Proof.
  intros H; unfold bindFS, bind, get_m; rewrite H.
  now destruct (r =? 0).
Qed.

(** C2: the probe [file -sL dev] always runs; when it exits 0 with
    output [out], [bindFS] looks at the lower-cased output [lo] and
    tries ext2, ext3, ext4, xfs, ntfs in this order: it stores the
    first type whose name [lo] contains and returns nil; so when [lo]
    contains exactly one of the five names that type is stored, and
    when it contains none [bindFS] returns [ErrUnKFs] and stores
    nothing. *)
Theorem bindFS_first_match_wins (s : St) :
  fs_order = ["ext2"; "ext3"; "ext4"; "xfs"; "ntfs"]
  /\ exists r out e s1,
       ExecCmd ("file -sL " ++ dev (args_ (mounter s))) s = Ok (r, out, e) s1
       /\ (r = 0 ->
           let lo := ToLower out in
           (forall pre v post,
              fs_order = (pre ++ v :: post)%list ->
              Contains lo v = true ->
              (forall u, In u pre -> Contains lo u = false) ->
              bindFS s = Ok None (upd_mounter (with_fs v) s1))
           /\ (forall v,
                 In v fs_order ->
                 Contains lo v = true ->
                 (forall u, In u fs_order -> u <> v ->
                            Contains lo u = false) ->
                 bindFS s = Ok None (upd_mounter (with_fs v) s1))
           /\ ((forall u, In u fs_order -> Contains lo u = false) ->
               bindFS s = Ok (Some ErrUnKFs) s1)).
Proof.
  split; [reflexivity|].
  destruct (probe_runs (dev (args_ (mounter s))) s) as (r & out & e & w & H).
  match type of H with _ = Ok _ ?st => set (s1 := st) in * end.
  exists r, out, e, s1; split; [exact H|].
  intros -> lo.
  assert (first : forall pre v post,
             fs_order = (pre ++ v :: post)%list ->
             Contains lo v = true ->
             (forall u, In u pre -> Contains lo u = false) ->
             bindFS s = Ok None (upd_mounter (with_fs v) s1)).
  { intros pre v post Hl Hv Hpre.
    rewrite (bindFS_eq _ _ _ _ _ H), Z.eqb_refl, Hl.
    now apply bindFS_loop_first. }
  split; [exact first|]; split.
  - intros v Hin Hv Hothers.
    destruct (in_split _ _ Hin) as (pre & post & Hl).
    apply (first pre v post Hl Hv).
    intros u Hu. apply Hothers.
    + rewrite Hl; apply in_or_app; now left.
    + intros ->. pose proof fs_order_NoDup as ND. rewrite Hl in ND.
      apply NoDup_remove_2 in ND. apply ND, in_or_app; now left.
  - intros Hnone. rewrite (bindFS_eq _ _ _ _ _ H), Z.eqb_refl.
    now apply bindFS_loop_none.
Qed.

(** A probe that exits nonzero makes [bindFS] return the launcher's
    error as it is, nil included. *)
Lemma bindFS_probe_failed (s s1 : St) r out e :
  ExecCmd (CFile ++ " -sL " ++ dev (args_ (mounter s))) s
  = Ok (r, out, e) s1 ->
  r <> 0 -> bindFS s = Ok e s1.
Proof.
  intros H Hr. now rewrite (bindFS_eq _ _ _ _ _ H), (eqb_neq_Z _ Hr).
Qed.

(** ** The UUID strategies (C3, C4) *)

Lemma Mount_ok_mounter fs0 d p c (s s1 : St) a :
  Mount fs0 d p c s = Ok a s1 -> mounter s1 = mounter s.
Proof.
  unfold Mount, bind; intros H.
  destruct (ExecCmd _ s) as [[[r o] e] sx|v sx] eqn:EX; [|discriminate].
  destruct (ExecCmd_ok_inv _ _ _ _ EX) as [_ Hm].
  destruct (negb (r =? 0)); inversion H; subst; exact Hm.
Qed.

Lemma UMount_ok_mounter p (s s1 : St) a :
  UMount p s = Ok a s1 -> mounter s1 = mounter s.
Proof.
  unfold UMount, bind; intros H.
  destruct (ExecCmd _ s) as [[[r o] e] sx|v sx] eqn:EX; [|discriminate].
  destruct (ExecCmd_ok_inv _ _ _ _ EX) as [_ Hm].
  destruct (negb (r =? 0)); inversion H; subst; exact Hm.
Qed.

(** [changeXFS] as the sequence of its three calls. *)
Lemma changeXFS_eq (s : St) :
  changeXFS s
  = match Mount (fs (mounter s)) (dev (args_ (mounter s)))
            (path_ (args_ (mounter s))) "-o rw,nouuid"
            {| world := fst (uuid_New (world s)); trace := trace s;
               mounter := mounter s |} with
    | Panic v s1 => Panic v s1
    | Ok (Some e) s1 => Ok (Some e) s1
    | Ok None s1 =>
        match UMount (dev (args_ (mounter s))) s1 with
        | Panic v s2 => Panic v s2
        | Ok (Some e) s2 => Ok (Some e) s2
        | Ok None s2 =>
            match GenXFSDevUUID (snd (uuid_New (world s)))
                    (dev (args_ (mounter s))) s2 with
            | Panic v s3 => Panic v s3
            | Ok (Some e) s3 => Ok (Some e) s3
            | Ok None s3 => Ok None s3
            end
        end
    end.
Proof.
  unfold changeXFS, bind at 1, new_uuid.
  destruct (uuid_New (world s)) as [w0 u]; simpl fst; simpl snd.
  unfold registerXFSDev, bind, get_m; simpl mounter.
  destruct (Mount _ _ _ _ _) as [[e|] s1|v s1] eqn:EM; try reflexivity.
  simpl.
  destruct (UMount _ s1) as [[e|] s2|v s2] eqn:EU; try reflexivity.
  simpl.
  rewrite (UMount_ok_mounter _ _ _ _ EU), (Mount_ok_mounter _ _ _ _ _ _ _ EM).
  simpl mounter.
  destruct (GenXFSDevUUID _ _ s2) as [[e|] s3|v s3]; reflexivity.
Qed.

(** C3: [changeXFS] draws a UUID [u], then runs the mount tool with
    [-o rw,nouuid] on the device and the mount path; on a nonzero exit
    it returns [ErrMount] having run nothing else; otherwise it runs
    [umount] on the device, and on a nonzero exit returns [ErrUMount]
    having run nothing else; otherwise it runs [xfs_admin -U u] on the
    device and returns [ErrGenUUID] on a nonzero exit and nil on exit
    0.  On an xfs mounter the mount tool is [mount] and
    [ChangeDevUUID] is this strategy. *)
Theorem changeXFS_mount_umount_then_set (s : St) :
  let m := mounter s in
  let d := dev (args_ m) in
  let p := path_ (args_ m) in
  let u := snd (uuid_New (world s)) in
  let s0 := {| world := fst (uuid_New (world s)); trace := trace s;
               mounter := m |} in
  let c1 := (if String.eqb (fs m) "ntfs" then "ntfs-3g" else "mount")
            ++ " -o rw,nouuid " ++ d ++ " " ++ p in
  let c2 := "umount " ++ d in
  let c3 := "xfs_admin -U " ++ u ++ " " ++ d in
  (fs m = FsXFS_ ->
   ChangeDevUUID s = changeXFS s
   /\ c1 = "mount -o rw,nouuid " ++ d ++ " " ++ p)
  /\ exists r1 out1 e1 s1,
       ExecCmd c1 s0 = Ok (r1, out1, e1) s1
       /\ trace s1 = (trace s ++ [c1])%list
       /\ (r1 <> 0 -> changeXFS s = Ok (Some ErrMount) s1)
       /\ (r1 = 0 ->
           exists r2 out2 e2 s2,
             ExecCmd c2 s1 = Ok (r2, out2, e2) s2
             /\ trace s2 = (trace s ++ [c1; c2])%list
             /\ (r2 <> 0 -> changeXFS s = Ok (Some ErrUMount) s2)
             /\ (r2 = 0 ->
                 exists r3 out3 e3 s3,
                   ExecCmd c3 s2 = Ok (r3, out3, e3) s3
                   /\ trace s3 = (trace s ++ [c1; c2; c3])%list
                   /\ (r3 <> 0 -> changeXFS s = Ok (Some ErrGenUUID) s3)
                   /\ (r3 = 0 -> changeXFS s = Ok None s3))).
Proof.
  intros m d p u s0 c1 c2 c3; split.
  - intros Hfs; split.
    + unfold ChangeDevUUID, bind, get_m. fold m. now rewrite Hfs.
    + unfold c1. now rewrite Hfs.
  - assert (Hreg : changeXFS s
                   = match Mount (fs m) d p "-o rw,nouuid" s0 with
                     | Panic v s1 => Panic v s1
                     | Ok (Some e) s1 => Ok (Some e) s1
                     | Ok None s1 =>
                         match UMount d s1 with
                         | Panic v s2 => Panic v s2
                         | Ok (Some e) s2 => Ok (Some e) s2
                         | Ok None s2 =>
                             match GenXFSDevUUID u d s2 with
                             | Panic v s3 => Panic v s3
                             | Ok (Some e) s3 => Ok (Some e) s3
                             | Ok None s3 => Ok None s3
                             end
                         end
                     end) by apply changeXFS_eq.
    destruct (Mount_cmd_runs (fs m) d p "-o rw,nouuid" s0)
      as (r1 & out1 & e1 & w1 & H1).
    match type of H1 with _ = Ok _ ?st => set (s1 := st) in * end.
    exists r1, out1, e1, s1; split; [exact H1|]; split; [reflexivity|].
    rewrite (Mount_eq _ _ _ _ _ _ _ _ _ H1) in Hreg.
    split.
    + intros Hr. now rewrite Hreg, (eqb_neq_Z _ Hr).
    + intros ->. simpl in Hreg.
      destruct (ExecCmd_runs "u" ("mount " ++ d) s1 eq_refl)
        as (r2 & out2 & e2 & w2 & H2).
      match type of H2 with _ = Ok _ ?st => set (s2 := st) in * end.
      exists r2, out2, e2, s2; split; [exact H2|].
      split; [simpl; now rewrite <- app_assoc|].
      pose proof (UMount_eq d _ _ _ _ _ H2) as HU.
      rewrite HU in Hreg.
      split.
      * intros Hr. now rewrite Hreg, (eqb_neq_Z _ Hr).
      * intros ->. simpl in Hreg.
        destruct (ExecCmd_runs "x" ("fs_admin -U " ++ u ++ " " ++ d) s2 eq_refl)
          as (r3 & out3 & e3 & w3 & H3).
        match type of H3 with _ = Ok _ ?st => set (s3 := st) in * end.
        exists r3, out3, e3, s3; split; [exact H3|].
        split; [simpl; now rewrite <- !app_assoc|].
        pose proof (GenXFSDevUUID_eq u d _ _ _ _ _ H3) as HG.
        rewrite HG in Hreg.
        split.
        -- intros Hr. now rewrite Hreg, (eqb_neq_Z _ Hr).
        -- intros ->. exact Hreg.
Qed.

Lemma strip_prefix_inv (p s rest : string) :
  regexp.strip_prefix p s = Some rest -> s = p ++ rest.
Proof.
  revert s; induction p as [|a p IH]; intros s H; simpl in *.
  - now inversion H.
  - destruct s as [|c s]; [discriminate|].
    destruct (Ascii.eqb_spec a c) as [->|]; [|discriminate].
    now rewrite (IH _ H).
Qed.

Lemma lazy_group_inv (s u : string) :
  regexp.lazy_group s = Some u -> exists post, s = u ++ String dquote post.
Proof.
  revert u; induction s as [|c s IH]; intros u H; simpl in H; [discriminate|].
  destruct (Ascii.eqb_spec c dquote) as [->|].
  - inversion H; subst; now exists s.
  - destruct (Ascii.eqb c newline); [discriminate|].
    destruct (regexp.lazy_group s) as [u'|]; [|discriminate].
    inversion H; subst. destruct (IH _ eq_refl) as [post ->].
    now exists post.
Qed.

(** A found UUID stands in the text between the key and a quote. *)
Lemma find_uuid_inv (s u : string) :
  regexp.find_uuid s = Some u ->
  exists pre post, s = pre ++ regexp.uuid_key ++ u ++ String dquote post.
Proof.
  assert (here : forall t, regexp.match_here t = Some u ->
            exists post, t = regexp.uuid_key ++ u ++ String dquote post).
  { intros t H; unfold regexp.match_here in H.
    destruct (regexp.strip_prefix regexp.uuid_key t) as [rest|] eqn:E;
      [|discriminate].
    apply strip_prefix_inv in E. apply lazy_group_inv in H as [post ->].
    now exists post. }
  induction s as [|c s IH]; intros H.
  - discriminate H.
  - simpl in H. destruct (regexp.match_here (String c s)) eqn:E.
    + inversion H; subst. destruct (here _ E) as [post Hp].
      now exists EmptyString, post.
    + destruct (IH H) as (pre & post & ->).
      now exists (String c pre), post.
Qed.

Lemma lazy_group_bytes (s u : string) :
  regexp.lazy_group s = Some u ->
  all_bytes (fun c => negb (Ascii.eqb c dquote)
                      && negb (Ascii.eqb c newline))%bool u = true.
Proof.
  revert u; induction s as [|c s IH]; intros u H; simpl in H; [discriminate|].
  destruct (Ascii.eqb c dquote) eqn:Eq; [now inversion H|].
  destruct (Ascii.eqb c newline) eqn:En; [discriminate|].
  destruct (regexp.lazy_group s) as [u'|]; [|discriminate].
  inversion H; subst; simpl. now rewrite Eq, En, (IH _ eq_refl).
Qed.

Lemma find_uuid_bytes (s u : string) :
  regexp.find_uuid s = Some u ->
  all_bytes (fun c => negb (Ascii.eqb c dquote)
                      && negb (Ascii.eqb c newline))%bool u = true.
Proof.
  assert (here : forall t, regexp.match_here t = Some u ->
            all_bytes (fun c => negb (Ascii.eqb c dquote)
                                && negb (Ascii.eqb c newline))%bool u = true).
  { intros t H; unfold regexp.match_here in H.
    destruct (regexp.strip_prefix regexp.uuid_key t); [|discriminate].
    now apply lazy_group_bytes in H. }
  induction s as [|c s IH]; intros H; [discriminate H|].
  simpl in H. destruct (regexp.match_here (String c s)) eqn:E.
  - inversion H; subst; now apply here in E.
  - now apply IH.
Qed.

Lemma strip_prefix_app (p t : string) :
  regexp.strip_prefix p (p ++ t) = Some t.
Proof.
  induction p as [|a p IH]; simpl; [now destruct t|].
  now rewrite Ascii.eqb_refl.
Qed.

Lemma lazy_group_complete (u post : string) :
  all_bytes (fun c => negb (Ascii.eqb c newline)) u = true ->
  regexp.lazy_group (u ++ String dquote post) <> None.
Proof.
  induction u as [|c u IH]; simpl; intros H.
  - discriminate.
  - apply andb_true_iff in H as [Hc Hu].
    destruct (Ascii.eqb c dquote); [discriminate|].
    apply negb_true_iff in Hc; rewrite Hc.
    destruct (regexp.lazy_group (u ++ String dquote post));
      [discriminate | now apply IH in Hu].
Qed.

(** The pattern matches wherever the key is followed, before any
    newline, by a quote. *)
Lemma find_uuid_complete (pre u post : string) :
  all_bytes (fun c => negb (Ascii.eqb c newline)) u = true ->
  regexp.find_uuid (pre ++ regexp.uuid_key ++ u ++ String dquote post)
  <> None.
Proof.
  intros Hu.
  assert (here : regexp.match_here
                   (regexp.uuid_key ++ u ++ String dquote post) <> None).
  { unfold regexp.match_here. rewrite strip_prefix_app.
    now apply lazy_group_complete. }
  induction pre as [|c pre IH].
  - change (EmptyString ++ regexp.uuid_key ++ u ++ String dquote post)
      with (regexp.uuid_key ++ u ++ String dquote post).
    destruct (regexp.match_here _) as [x|] eqn:E; [|contradiction].
    simpl. simpl in E. rewrite E. discriminate.
  - change (regexp.find_uuid
              (String c (pre ++ regexp.uuid_key ++ u ++ String dquote post))
            <> None).
    cbn [regexp.find_uuid].
    destruct (regexp.match_here (String c _)); [discriminate | exact IH].
Qed.

Lemma match_here_inv (t u : string) :
  regexp.match_here t = Some u ->
  exists post, t = regexp.uuid_key ++ u ++ String dquote post.
Proof.
  unfold regexp.match_here; intros H.
  destruct (regexp.strip_prefix regexp.uuid_key t) as [rest|] eqn:E;
    [|discriminate].
  apply strip_prefix_inv in E. apply lazy_group_inv in H as [post ->].
  now exists post.
Qed.

Lemma match_here_bytes (t u : string) :
  regexp.match_here t = Some u ->
  all_bytes (fun c => negb (Ascii.eqb c dquote)
                      && negb (Ascii.eqb c newline))%bool u = true.
Proof.
  unfold regexp.match_here; intros H.
  destruct (regexp.strip_prefix regexp.uuid_key t); [|discriminate].
  now apply lazy_group_bytes in H.
Qed.

(** Where the pattern matches at the head of a text, [match_here]
    finds a group. *)
Lemma match_here_complete (t : string) :
  starts_uuid_match t -> regexp.match_here t <> None.
Proof.
  intros (u & post & -> & Hu). unfold regexp.match_here.
  rewrite strip_prefix_app. now apply lazy_group_complete.
Qed.

(** No match anywhere exactly when [find_uuid] finds none. *)
Lemma find_uuid_none_iff (s : string) :
  regexp.find_uuid s = None
  <-> forall p1 p2, s = p1 ++ p2 -> ~ starts_uuid_match p2.
Proof.
  split.
  - intros Hn p1 p2 -> (u & post & -> & Hu).
    now apply (find_uuid_complete p1 u post Hu).
  - intros Hno. destruct (regexp.find_uuid s) as [u|] eqn:F; [|reflexivity].
    destruct (find_uuid_inv _ _ F) as (pre & post & Hd).
    exfalso; apply (Hno pre _ Hd).
    exists u, post; split; [reflexivity|].
    apply find_uuid_bytes in F. clear - F.
    induction u as [|c u IH]; simpl in *; [reflexivity|].
    apply andb_true_iff in F as [Fc Fu].
    apply andb_true_iff in Fc as [_ Fc].
    now rewrite Fc, IH.
Qed.

(** The group [find_uuid] returns is that of the leftmost match, and
    the shortest there: it stands between the key and the next quote,
    and no match starts left of that key. *)
Lemma find_uuid_leftmost (s u : string) :
  regexp.find_uuid s = Some u ->
  exists pre post,
    s = pre ++ regexp.uuid_key ++ u ++ String dquote post
    /\ all_bytes (fun c => negb (Ascii.eqb c dquote)
                           && negb (Ascii.eqb c newline))%bool u = true
    /\ forall p1 p2,
         pre = p1 ++ p2 -> p2 <> EmptyString ->
         ~ starts_uuid_match
             (p2 ++ regexp.uuid_key ++ u ++ String dquote post).
Proof.
  induction s as [|c s IH]; intros H; [discriminate H|].
  cbn [regexp.find_uuid] in H.
  destruct (regexp.match_here (String c s)) as [u0|] eqn:E.
  - inversion H; subst u0.
    destruct (match_here_inv _ _ E) as [post Hd].
    exists EmptyString, post; split; [exact Hd|].
    split; [now apply match_here_bytes in E|].
    intros p1 p2 Hs Hne. destruct p1; simpl in Hs; [congruence|discriminate].
  - destruct (IH H) as (pre & post & Hd & Hb & Hleft).
    exists (String c pre), post; split; [now rewrite Hd at 1|].
    split; [exact Hb|].
    intros p1 p2 Hs Hne Hm. destruct p1 as [|c1 p1]; simpl in Hs.
    + subst p2.
      change (starts_uuid_match
                (String c (pre ++ regexp.uuid_key ++ u ++ String dquote post)))
        in Hm.
      rewrite <- Hd in Hm. now apply match_here_complete in Hm.
    + injection Hs as _ Hp. exact (Hleft p1 p2 Hp Hne Hm).
Qed.

Lemma changeEXT_eq (s : St) :
  changeEXT s
  = match GenExtDevUUID (dev (args_ (mounter s))) s with
    | Panic v s1 => Panic v s1
    | Ok (Some e) s1 => Ok (Some e) s1
    | Ok None s1 =>
        match QueryDeviceUUID (dev (args_ (mounter s1))) s1 with
        | Panic v s2 => Panic v s2
        | Ok (u, Some _) s2 =>
            Ok (Some ErrQueryUUID) (upd_mounter (with_uuid u) s2)
        | Ok (u, None) s2 => Ok None (upd_mounter (with_uuid u) s2)
        end
    end.
Proof.
  unfold changeEXT, bind, get_m.
  destruct (GenExtDevUUID _ s) as [[e|] s1|v s1]; try reflexivity.
  destruct (QueryDeviceUUID _ s1) as [[u [e|]] s2|v s2]; reflexivity.
Qed.

(** C4, as amended: [changeEXT] runs [tune2fs -U random] on the
    device and on a nonzero exit returns [ErrGenUUID] having run
    nothing else; otherwise it runs the [blkid] query and returns
    [ErrQueryUUID] when the query exits nonzero or its lower-cased
    output holds no match of the pattern, that is, nowhere the key
    followed, before any newline, by a double quote; otherwise it
    returns nil and records the group of the leftmost match: the text
    between the first key that is followed on its line by a double
    quote and that next double quote; this text holds no double quote
    and no newline, and it may be empty. *)
Theorem changeEXT_randomize_then_query (s : St) :
  let d := dev (args_ (mounter s)) in
  let c1 := "tune2fs -U random " ++ d in
  let c2 := "blkid | grep " ++ d in
  exists r1 out1 e1 s1,
    ExecCmd c1 s = Ok (r1, out1, e1) s1
    /\ trace s1 = (trace s ++ [c1])%list
    /\ (r1 <> 0 -> changeEXT s = Ok (Some ErrGenUUID) s1)
    /\ (r1 = 0 ->
        exists r2 out2 e2 s2,
          ExecCmd c2 s1 = Ok (r2, out2, e2) s2
          /\ trace s2 = (trace s ++ [c1; c2])%list
          /\ (r2 <> 0 \/ regexp.find_uuid (ToLower out2) = None ->
              changeEXT s
              = Ok (Some ErrQueryUUID)
                   (upd_mounter (with_uuid EmptyString) s2))
          /\ (r2 = 0 ->
              forall u, regexp.find_uuid (ToLower out2) = Some u ->
                changeEXT s = Ok None (upd_mounter (with_uuid u) s2)
                /\ exists pre post,
                     ToLower out2
                     = pre ++ "uuid=" ++ String dquote u
                           ++ String dquote post
                     /\ all_bytes
                          (fun c => negb (Ascii.eqb c dquote)
                                    && negb (Ascii.eqb c newline))%bool u
                        = true
                     /\ forall p1 p2,
                          pre = p1 ++ p2 -> p2 <> EmptyString ->
                          ~ starts_uuid_match
                              (p2 ++ "uuid=" ++ String dquote u
                                  ++ String dquote post))
          /\ (regexp.find_uuid (ToLower out2) = None
              <-> forall p1 p2,
                    ToLower out2 = p1 ++ p2 -> ~ starts_uuid_match p2)).
Proof.
  intros d c1 c2.
  assert (Heq : changeEXT s
                = match GenExtDevUUID d s with
                  | Panic v s1 => Panic v s1
                  | Ok (Some e) s1 => Ok (Some e) s1
                  | Ok None s1 =>
                      match QueryDeviceUUID (dev (args_ (mounter s1))) s1 with
                      | Panic v s2 => Panic v s2
                      | Ok (u, Some _) s2 =>
                          Ok (Some ErrQueryUUID)
                             (upd_mounter (with_uuid u) s2)
                      | Ok (u, None) s2 =>
                          Ok None (upd_mounter (with_uuid u) s2)
                      end
                  end) by apply changeEXT_eq.
  destruct (ExecCmd_runs "t" ("une2fs -U random " ++ d) s eq_refl)
    as (r1 & out1 & e1 & w1 & H1).
  match type of H1 with _ = Ok _ ?st => set (s1 := st) in * end.
  exists r1, out1, e1, s1; split; [exact H1|]; split; [reflexivity|].
  rewrite (GenExtDevUUID_eq d _ _ _ _ _ H1) in Heq.
  split.
  - intros Hr. now rewrite Heq, (eqb_neq_Z _ Hr).
  - intros ->. simpl in Heq. fold d in Heq.
    destruct (ExecCmd_runs "b" ("lkid | grep " ++ d) s1 eq_refl)
      as (r2 & out2 & e2 & w2 & H2).
    match type of H2 with _ = Ok _ ?st => set (s2 := st) in * end.
    exists r2, out2, e2, s2; split; [exact H2|].
    split; [simpl; now rewrite <- app_assoc|].
    rewrite (QueryDeviceUUID_eq d _ _ _ _ _ H2) in Heq.
    split; [|split].
    + intros [Hr|Hn].
      * now rewrite Heq, (eqb_neq_Z _ Hr).
      * rewrite Heq, Hn. now destruct (r2 =? 0).
    + intros -> u Hu. split.
      * now rewrite Heq, Hu.
      * destruct (find_uuid_leftmost _ _ Hu) as (pre & post & Hp & Hb & Hl).
        exists pre, post. split; [exact Hp|]. split; [exact Hb|].
        exact Hl.
    + apply find_uuid_none_iff.
Qed.

(** ** More on the command lines: how they are split *)

Lemma fields_from_app_space (c : ascii) (a b tok : string) :
  isSpace c = true ->
  fields_from tok (a ++ String c b)
  = (fields_from tok a ++ fields_from EmptyString b)%list.
Proof.
  intros Hc; revert tok; induction a as [|x a IH]; intros tok; simpl.
  - rewrite Hc; now destruct tok.
  - destruct (isSpace x).
    + destruct tok; simpl; now rewrite IH.
    + apply IH.
Qed.

(** The fields of two texts joined by a white space. *)
Lemma Fields_app_space (c : ascii) (a b : string) :
  isSpace c = true ->
  Fields (a ++ String c b) = (Fields a ++ Fields b)%list.
Proof. intros Hc; now apply fields_from_app_space. Qed.

Lemma Fields_nil_blank (s : string) : Fields s = [] <-> blank s = true.
Proof.
  unfold Fields; induction s as [|c s IH]; simpl.
  - tauto.
  - destruct (isSpace c) eqn:Hc; simpl.
    + exact IH.
    + split; [|discriminate].
      intros H; now apply fields_from_tok in H.
Qed.

(** [ExecCmd] on a line whose fields are known. *)
Lemma ExecCmd_fields (cmdStr name : string) (args : list string) (s : St) :
  Fields cmdStr = name :: args ->
  ExecCmd cmdStr s
  = Ok (Exit (snd (cmd_Start (world s) name args)),
        Join (Stdout (snd (cmd_Start (world s) name args)))
             (String newline EmptyString),
        option_map ErrExec (Error (snd (cmd_Start (world s) name args))))
       {| world := fst (cmd_Start (world s) name args);
          trace := trace s ++ [cmdStr];
          mounter := mounter s |}.
Proof.
  intros H; unfold ExecCmd; rewrite H.
  now destruct (cmd_Start (world s) name args).
Qed.

(** X1: [ExecCmd] panics with Go's run-time error for the slice
    bounds [1:0], starting no process and changing nothing, on the
    empty line and on every line of ASCII white space; it raises no
    other panic, and a panic leaves the state as it was; on a line
    whose first byte is an ASCII byte other than white space (every
    line this program formats starts with the name of a tool) it
    starts one process, records the line and returns. *)
Theorem ExecCmd_blank_line_panics (cmdStr : string) (s : St) :
  (blank cmdStr = true ->
   ExecCmd cmdStr s
   = Panic (PanicRuntime "slice bounds out of range [1:0]") s)
  /\ (forall v s', ExecCmd cmdStr s = Panic v s' ->
        v = PanicRuntime "slice bounds out of range [1:0]" /\ s' = s)
  /\ (forall c t,
        cmdStr = String c t -> ascii_not_space c = true ->
        exists r out e w,
          ExecCmd cmdStr s
          = Ok (r, out, e)
               {| world := w; trace := trace s ++ [cmdStr];
                  mounter := mounter s |}).
Proof.
  split; [|split].
  - intros Hb; apply Fields_nil_blank in Hb.
    unfold ExecCmd; now rewrite Hb.
  - intros v s'; unfold ExecCmd.
    destruct (Fields cmdStr); [now inversion 1|].
    destruct (cmd_Start _ _ _); discriminate.
  - intros c t -> Hc. apply ExecCmd_runs.
    unfold ascii_not_space in Hc.
    apply andb_true_iff in Hc as [_ Hc]. now apply negb_true_iff in Hc.
Qed.

Lemma Mount_cmd_fields fs0 dev0 path0 ctx0 :
  Fields (Mount_cmd fs0 dev0 path0 ctx0)
  = Mount_caller fs0 :: (Fields ctx0 ++ Fields dev0 ++ Fields path0)%list.
Proof.
  unfold Mount_cmd.
  change (Mount_caller fs0 ++ " " ++ ctx0 ++ " " ++ dev0 ++ " " ++ path0)
    with (Mount_caller fs0 ++ String " " (ctx0 ++ String " "
            (dev0 ++ String " " path0))).
  rewrite !Fields_app_space by reflexivity.
  unfold Mount_caller; now destruct (String.eqb fs0 FsNTFs).
Qed.

(** X2: [Mount] starts ntfs-3g for ntfs and mount for every other
    type, with the fields of the options, of the device and of the
    path as its arguments, in this order: the line goes through no
    shell, an empty options string adds no argument, and a device or
    a path with a blank in it is passed as several arguments.
    [Mount] fails with [ErrMount] exactly when the process exits
    nonzero.  [MountDevice] is [Mount] with no options on the stored
    type, device and path. *)
Theorem Mount_arguments (fs0 : FileSystemType) (dev0 path0 ctx0 : string)
        (s : St) :
  let tool := if String.eqb fs0 "ntfs" then "ntfs-3g" else "mount" in
  let argv := (Fields ctx0 ++ Fields dev0 ++ Fields path0)%list in
  let st := snd (cmd_Start (world s) tool argv) in
  Mount fs0 dev0 path0 ctx0 s
  = Ok (if Exit st =? 0 then None else Some ErrMount)
       {| world := fst (cmd_Start (world s) tool argv);
          trace := trace s
                   ++ [tool ++ " " ++ ctx0 ++ " " ++ dev0 ++ " " ++ path0];
          mounter := mounter s |}
  /\ MountDevice s
     = Mount (fs (mounter s)) (dev (args_ (mounter s)))
         (path_ (args_ (mounter s))) EmptyString s
  /\ (ctx0 = EmptyString -> argv = (Fields dev0 ++ Fields path0)%list).
Proof.
  intros tool argv st; split; [|split].
  - pose proof (ExecCmd_fields _ _ _ s (Mount_cmd_fields fs0 dev0 path0 ctx0))
      as H.
    now rewrite (Mount_eq _ _ _ _ _ _ _ _ _ H).
  - reflexivity.
  - intros ->; reflexivity.
Qed.

(** X3: [QueryDeviceUUID] starts [blkid] with the arguments [|],
    [grep] and the fields of the device: the bar is an argument of
    [blkid], no pipe, and no [grep] runs.  It returns [ErrDevUUID]
    with an empty UUID when [blkid] exits nonzero. *)
Theorem QueryDeviceUUID_runs_no_pipe (dev0 : string) (s : St) :
  let argv := ("|" :: "grep" :: Fields dev0)%list in
  let st := snd (cmd_Start (world s) "blkid" argv) in
  let out := Join (Stdout st) (String newline EmptyString) in
  QueryDeviceUUID dev0 s
  = Ok (if Exit st =? 0 then
          match regexp.find_uuid (ToLower out) with
          | Some u => (u, None)
          | None => (EmptyString, Some ErrDevUUID)
          end
        else (EmptyString, Some ErrDevUUID))
       {| world := fst (cmd_Start (world s) "blkid" argv);
          trace := trace s ++ ["blkid | grep " ++ dev0];
          mounter := mounter s |}.
Proof.
  intros argv st out.
  assert (F : Fields (CBlkID ++ " | grep " ++ dev0) = "blkid" :: argv).
  { change (CBlkID ++ " | grep " ++ dev0)
      with ("blkid" ++ String " " ("|" ++ String " "
              ("grep" ++ String " " dev0))).
    now rewrite !Fields_app_space by reflexivity. }
  pose proof (ExecCmd_fields _ _ _ s F) as H.
  now rewrite (QueryDeviceUUID_eq _ _ _ _ _ _ H).
Qed.

(** X4: [UMount] starts [umount] with the fields of its argument (none
    for an empty or blank one), looks at the exit code alone, and
    returns nil on 0 and [ErrUMount] otherwise; it never panics. *)
Theorem UMount_arguments (path0 : string) (s : St) :
  let argv := Fields path0 in
  let st := snd (cmd_Start (world s) "umount" argv) in
  UMount path0 s
  = Ok (if Exit st =? 0 then None else Some ErrUMount)
       {| world := fst (cmd_Start (world s) "umount" argv);
          trace := trace s ++ ["umount " ++ path0];
          mounter := mounter s |}
  /\ (blank path0 = true -> argv = []).
Proof.
  intros argv st; split.
  - assert (F : Fields (CUMount ++ " " ++ path0) = "umount" :: argv).
    { change (CUMount ++ " " ++ path0) with ("umount" ++ String " " path0).
      now rewrite Fields_app_space by reflexivity. }
    pose proof (ExecCmd_fields _ _ _ s F) as H.
    now rewrite (UMount_eq _ _ _ _ _ _ H).
  - intros Hb; now apply Fields_nil_blank.
Qed.

(** X5: [GenExtDevUUID] starts [tune2fs -U random] on the fields of
    the device and [GenXFSDevUUID] starts [xfs_admin -U] on the fields
    of the UUID and of the device; each returns nil when its process
    exits 0 and [ErrGenUUID] otherwise, whatever the process printed
    and whatever the launcher reported. *)
Theorem GenDevUUID_arguments (uuid0 dev0 : string) (s : St) :
  (let argv := ("-U" :: "random" :: Fields dev0)%list in
   let st := snd (cmd_Start (world s) "tune2fs" argv) in
   GenExtDevUUID dev0 s
   = Ok (if Exit st =? 0 then None else Some ErrGenUUID)
        {| world := fst (cmd_Start (world s) "tune2fs" argv);
           trace := trace s ++ ["tune2fs -U random " ++ dev0];
           mounter := mounter s |})
  /\ (let argv := ("-U" :: Fields uuid0 ++ Fields dev0)%list in
      let st := snd (cmd_Start (world s) "xfs_admin" argv) in
      GenXFSDevUUID uuid0 dev0 s
      = Ok (if Exit st =? 0 then None else Some ErrGenUUID)
           {| world := fst (cmd_Start (world s) "xfs_admin" argv);
              trace := trace s ++ ["xfs_admin -U " ++ uuid0 ++ " " ++ dev0];
              mounter := mounter s |}).
Proof.
  split.
  - intros argv st.
    assert (F : Fields (CTune2FS ++ " -U random " ++ dev0)
                = "tune2fs" :: argv).
    { change (CTune2FS ++ " -U random " ++ dev0)
        with ("tune2fs" ++ String " " ("-U" ++ String " "
                ("random" ++ String " " dev0))).
      now rewrite !Fields_app_space by reflexivity. }
    pose proof (ExecCmd_fields _ _ _ s F) as H.
    now rewrite (GenExtDevUUID_eq _ _ _ _ _ _ H).
  - intros argv st.
    assert (F : Fields (CXFSAdmin ++ " -U " ++ uuid0 ++ " " ++ dev0)
                = "xfs_admin" :: argv).
    { change (CXFSAdmin ++ " -U " ++ uuid0 ++ " " ++ dev0)
        with ("xfs_admin" ++ String " " ("-U" ++ String " "
                (uuid0 ++ String " " dev0))).
      now rewrite !Fields_app_space by reflexivity. }
    pose proof (ExecCmd_fields _ _ _ s F) as H.
    now rewrite (GenXFSDevUUID_eq _ _ _ _ _ _ _ H).
Qed.

(** ** What the calls can return *)

Lemma Mount_returns fs0 d p c (s : St) :
  exists e s1,
    Mount fs0 d p c s = Ok e s1 /\ mounter s1 = mounter s
    /\ (e = None \/ e = Some ErrMount).
Proof.
  clear uuid_New.
  destruct (Mount_cmd_runs fs0 d p c s) as (r & out & e & w & H).
  rewrite (Mount_eq _ _ _ _ _ _ _ _ _ H).
  eexists _, _; split; [reflexivity|]; split; [reflexivity|].
  destruct (r =? 0); tauto.
Qed.

Lemma UMount_returns p (s : St) :
  exists e s1,
    UMount p s = Ok e s1 /\ mounter s1 = mounter s
    /\ (e = None \/ e = Some ErrUMount).
Proof.
  clear uuid_New.
  destruct (ExecCmd_runs "u" ("mount " ++ p) s eq_refl)
    as (r & out & e & w & H).
  rewrite (UMount_eq _ _ _ _ _ _ H).
  eexists _, _; split; [reflexivity|]; split; [reflexivity|].
  destruct (r =? 0); tauto.
Qed.

Lemma GenExtDevUUID_returns d (s : St) :
  exists e s1,
    GenExtDevUUID d s = Ok e s1 /\ mounter s1 = mounter s
    /\ (e = None \/ e = Some ErrGenUUID).
Proof.
  clear uuid_New.
  destruct (ExecCmd_runs "t" ("une2fs -U random " ++ d) s eq_refl)
    as (r & out & e & w & H).
  rewrite (GenExtDevUUID_eq _ _ _ _ _ _ H).
  eexists _, _; split; [reflexivity|]; split; [reflexivity|].
  destruct (r =? 0); tauto.
Qed.

Lemma GenXFSDevUUID_returns u d (s : St) :
  exists e s1,
    GenXFSDevUUID u d s = Ok e s1 /\ mounter s1 = mounter s
    /\ (e = None \/ e = Some ErrGenUUID).
Proof.
  clear uuid_New.
  destruct (ExecCmd_runs "x" ("fs_admin -U " ++ u ++ " " ++ d) s eq_refl)
    as (r & out & e & w & H).
  rewrite (GenXFSDevUUID_eq _ _ _ _ _ _ _ H).
  eexists _, _; split; [reflexivity|]; split; [reflexivity|].
  destruct (r =? 0); tauto.
Qed.

Lemma QueryDeviceUUID_returns d (s : St) :
  exists u e s1,
    QueryDeviceUUID d s = Ok (u, e) s1 /\ mounter s1 = mounter s
    /\ (e = None \/ (e = Some ErrDevUUID /\ u = EmptyString)).
Proof.
  clear uuid_New.
  destruct (ExecCmd_runs "b" ("lkid | grep " ++ d) s eq_refl)
    as (r & out & e & w & H).
  rewrite (QueryDeviceUUID_eq _ _ _ _ _ _ H).
  destruct (r =? 0); [destruct (regexp.find_uuid (ToLower out))|];
    eexists _, _, _; (split; [reflexivity|]; split; [reflexivity|]); tauto.
Qed.

Lemma IsMount_returns p (s : St) :
  (exists b s1, IsMount p s = Ok b s1 /\ mounter s1 = mounter s)
  \/ (exists s1, IsMount p s = Panic (PanicCaller CMount) s1
                 /\ mounter s1 = mounter s).
Proof.
  destruct (listing_runs s) as (r & out & e & w & H).
  rewrite (IsMount_eq p _ _ _ _ _ H).
  destruct (r =? 0); [left|right]; eexists; eauto.
Qed.

(** [changeEXT] returns: nil or one of its two errors; it touches
    [uuid_] alone. *)
Lemma changeEXT_returns (s : St) :
  exists e s1,
    changeEXT s = Ok e s1
    /\ (e = None \/ e = Some ErrGenUUID \/ e = Some ErrQueryUUID)
    /\ exists u, mounter s1 = with_uuid u (mounter s).
Proof.
  clear uuid_New.
  rewrite changeEXT_eq.
  destruct (GenExtDevUUID_returns (dev (args_ (mounter s))) s)
    as (e1 & s1 & -> & Hm1 & [->| ->]).
  - destruct (QueryDeviceUUID_returns (dev (args_ (mounter s1))) s1)
      as (u & e2 & s2 & -> & Hm2 & [->|[-> _]]);
      eexists _, _; (split; [reflexivity|]); (split; [tauto|]);
      exists u; simpl; now rewrite Hm2, Hm1.
  - eexists _, _; split; [reflexivity|]; split; [tauto|].
    exists (uuid_ (mounter s)); rewrite Hm1. now destruct (mounter s).
Qed.

(** [changeXFS] returns: nil or one of its three errors; it leaves the
    mounter as it is. *)
Lemma changeXFS_returns (s : St) :
  exists e s1,
    changeXFS s = Ok e s1
    /\ (e = None \/ e = Some ErrMount \/ e = Some ErrUMount
        \/ e = Some ErrGenUUID)
    /\ mounter s1 = mounter s.
Proof.
  rewrite changeXFS_eq.
  match goal with |- context [Mount ?f ?d ?p ?c ?s0] =>
    destruct (Mount_returns f d p c s0) as (e1 & s1 & -> & Hm1 & [->| ->])
  end; simpl in Hm1.
  - destruct (UMount_returns (dev (args_ (mounter s))) s1)
      as (e2 & s2 & -> & Hm2 & [->| ->]).
    + match goal with |- context [GenXFSDevUUID ?u ?d s2] =>
        destruct (GenXFSDevUUID_returns u d s2)
          as (e3 & s3 & -> & Hm3 & [->| ->])
      end; eexists _, _; (split; [reflexivity|]); (split; [tauto|]);
        congruence.
    + eexists _, _; split; [reflexivity|]; split; [tauto|]; congruence.
  - eexists _, _; split; [reflexivity|]; split; [tauto|]; congruence.
Qed.

Lemma supported_dispatch (f : FileSystemType) :
  In f fs_order -> ~ unsupported f.
Proof.
  simpl; intros [<-|[<-|[<-|[<-|[<-|[]]]]]] (H1 & H2 & H3);
    solve [discriminate H1 | now apply H2 | now apply H3].
Qed.

(** X6: [ChangeDevUUID] returns [ErrUnsFs] exactly when the stored
    type neither starts with [ext] nor is ntfs nor xfs (the unset type
    of a fresh mounter among them), and then it has run no command and
    changed nothing; on ntfs it returns nil, again with no command run
    and nothing changed; a type that starts with [ext], whatever
    follows, gets the ext strategy. *)
Theorem ChangeDevUUID_unsupported_iff (s : St) :
  let f := fs (mounter s) in
  (forall s1, ChangeDevUUID s = Ok (Some ErrUnsFs) s1 <->
              (unsupported f /\ s1 = s))
  /\ (f = EmptyString -> ChangeDevUUID s = Ok (Some ErrUnsFs) s)
  /\ (f = FsNTFs -> ChangeDevUUID s = Ok None s)
  /\ (HasPrefix f "ext" = true -> ChangeDevUUID s = changeEXT s).
Proof.
  intros f.
  assert (Hd : ChangeDevUUID s
               = if HasPrefix f "ext" then changeEXT s
                 else if String.eqb f FsNTFs then Ok None s
                 else if String.eqb f FsXFS_ then changeXFS s
                 else Ok (Some ErrUnsFs) s).
  { unfold ChangeDevUUID, bind, get_m; fold f.
    destruct (HasPrefix f "ext"); [reflexivity|].
    destruct (String.eqb f FsNTFs); [reflexivity|].
    now destruct (String.eqb f FsXFS_). }
  split; [|split; [|split]].
  - intros s1; rewrite Hd; unfold unsupported; split.
    + destruct (HasPrefix f "ext").
      * destruct (changeEXT_returns s) as (e & s2 & -> & [->|[->| ->]] & _);
          discriminate.
      * destruct (String.eqb_spec f FsNTFs) as [En|En]; [discriminate|].
        destruct (String.eqb_spec f FsXFS_) as [Ex|Ex].
        -- destruct (changeXFS_returns s)
             as (e & s2 & -> & [->|[->|[->| ->]]] & _); discriminate.
        -- intros H; inversion H; tauto.
    + intros ((-> & Hn & Hx) & ->).
      destruct (String.eqb_spec f FsNTFs) as [En|En]; [contradiction|].
      destruct (String.eqb_spec f FsXFS_) as [Ex|Ex];
        [contradiction|reflexivity].
  - intros E; rewrite Hd, E; reflexivity.
  - intros E; rewrite Hd, E; reflexivity.
  - intros E; now rewrite Hd, E.
Qed.

(** [ChangeDevUUID] always returns. *)
Lemma ChangeDevUUID_returns (s : St) :
  exists e s1,
    ChangeDevUUID s = Ok e s1
    /\ (e = None \/ e = Some ErrGenUUID \/ e = Some ErrQueryUUID
        \/ e = Some ErrMount \/ e = Some ErrUMount
        \/ (e = Some ErrUnsFs /\ unsupported (fs (mounter s))))
    /\ (exists u, mounter s1 = with_uuid u (mounter s))
    /\ (HasPrefix (fs (mounter s)) "ext" = false -> mounter s1 = mounter s).
Proof.
  assert (Hself : exists u, mounter s = with_uuid u (mounter s)).
  { exists (uuid_ (mounter s)); now destruct (mounter s). }
  unfold ChangeDevUUID, bind, get_m.
  destruct (HasPrefix (fs (mounter s)) "ext") eqn:E1.
  - destruct (changeEXT_returns s) as (e & s1 & -> & He & Hu).
    exists e, s1; repeat split; [tauto | exact Hu | discriminate].
  - destruct (String.eqb_spec (fs (mounter s)) FsNTFs) as [E2|E2].
    + exists None, s; repeat split; [tauto | exact Hself].
    + destruct (String.eqb_spec (fs (mounter s)) FsXFS_) as [E3|E3].
      * destruct (changeXFS_returns s) as (e & s1 & -> & He & Hm).
        exists e, s1; repeat split;
          [tauto | rewrite Hm; exact Hself | now rewrite Hm].
      * exists (Some ErrUnsFs), s; repeat split;
          [unfold unsupported; tauto | exact Hself].
Qed.

(** X7: [ChangeDevUUID] never panics; it returns nil or one of
    [ErrGenUUID], [ErrQueryUUID], [ErrMount], [ErrUMount], [ErrUnsFs],
    never [ErrDevUUID] (the query's own error is replaced by
    [ErrQueryUUID]); of the mounter it changes [uuid_] at most, and
    nothing at all unless the type starts with [ext]. *)
Theorem ChangeDevUUID_never_panics (s : St) :
  exists e s1,
    ChangeDevUUID s = Ok e s1
    /\ In e [None; Some ErrGenUUID; Some ErrQueryUUID; Some ErrMount;
             Some ErrUMount; Some ErrUnsFs]
    /\ e <> Some ErrDevUUID
    /\ args_ (mounter s1) = args_ (mounter s)
    /\ fs (mounter s1) = fs (mounter s)
    /\ caller_ (mounter s1) = caller_ (mounter s)
    /\ (HasPrefix (fs (mounter s)) "ext" = false -> mounter s1 = mounter s).
Proof.
  destruct (ChangeDevUUID_returns s) as (e & s1 & H & He & [u Hu] & Hq).
  exists e, s1; split; [exact H|].
  repeat split; try (rewrite Hu; reflexivity); try exact Hq.
  - simpl; intuition (subst; auto 10).
  - intuition (subst; discriminate).
Qed.

(** ** Binding, and the outcomes of a run *)

(** The launcher's error is nil or an error of the launcher. *)
Lemma ExecCmd_error_kind (cmdStr : string) (s s1 : St) r out e :
  ExecCmd cmdStr s = Ok (r, out, e) s1 ->
  e = None \/ exists msg, e = Some (ErrExec msg).
Proof.
  unfold ExecCmd; destruct (Fields cmdStr); [discriminate|].
  destruct (cmd_Start _ _ _) as [w st]; intros H; inversion H; subst.
  destruct (Error st) as [msg|]; simpl; [right; now exists msg | now left].
Qed.

Lemma GetCallerByFS_cases (f : FileSystemType) (s : St) :
  (In f fs_order /\ GetCallerByFS f s = Ok (Mount_caller f) s)
  \/ (~ In f fs_order /\ GetCallerByFS f s = Panic (PanicError ErrUnsFs) s).
Proof.
  unfold GetCallerByFS, fs_order.
  destruct (String.eqb_spec f FsExt2) as [->|N1]; [left; simpl; tauto|].
  destruct (String.eqb_spec f FsExt3) as [->|N2]; [left; simpl; tauto|].
  destruct (String.eqb_spec f FsExt4) as [->|N3]; [left; simpl; tauto|].
  destruct (String.eqb_spec f FsXFS_) as [->|N4]; [left; simpl; tauto|].
  destruct (String.eqb_spec f FsNTFs) as [->|N5]; [left; simpl; tauto|].
  right; split; [|reflexivity].
  simpl; intros [E|[E|[E|[E|[E|[]]]]]]; congruence.
Qed.

Lemma bindFS_loop_cases out vs (s : St) :
  bindFS_loop out vs s = Ok (Some ErrUnKFs) s
  \/ exists v, In v vs
               /\ bindFS_loop out vs s = Ok None (upd_mounter (with_fs v) s).
Proof.
  induction vs as [|v vs IH]; simpl; [now left|].
  destruct (Contains out v).
  - right; exists v; split; [now left | reflexivity].
  - destruct IH as [IH|(u & Hu & IH)]; [now left|].
    right; exists u; split; [now right | exact IH].
Qed.

(** [bindFS] always returns; it stores a type only when it returns
    nil, and then one of the five. *)
Lemma bindFS_returns (s : St) :
  exists e s1,
    bindFS s = Ok e s1
    /\ ((e = None /\ exists v, In v fs_order
                               /\ mounter s1 = with_fs v (mounter s))
        \/ (mounter s1 = mounter s
            /\ (e = None \/ e = Some ErrUnKFs
                \/ exists msg, e = Some (ErrExec msg)))).
Proof.
  clear uuid_New.
  destruct (probe_runs (dev (args_ (mounter s))) s) as (r & out & e & w & H).
  rewrite (bindFS_eq _ _ _ _ _ H).
  destruct (r =? 0).
  - match goal with |- context [bindFS_loop ?o ?vs ?s1] =>
      destruct (bindFS_loop_cases o vs s1) as [->|(v & Hv & ->)]
    end.
    + eexists _, _; split; [reflexivity|]. right; split; [reflexivity|tauto].
    + eexists _, _; split; [reflexivity|]. left; split; [reflexivity|].
      exists v; split; [exact Hv | reflexivity].
  - eexists _, _; split; [reflexivity|]. right; split; [reflexivity|].
    destruct (ExecCmd_error_kind _ _ _ _ _ _ H) as [->|[msg ->]]; eauto.
Qed.

Lemma BindArgs_eq (s : St) :
  BindArgs s
  = match bindFS s with
    | Panic v s1 => Panic v s1
    | Ok (Some e) s1 => Ok (Some e) s1
    | Ok None s1 =>
        match GetCallerByFS (fs (mounter s1)) s1 with
        | Panic v s2 => Panic v s2
        | Ok c s2 => Ok None (upd_mounter (with_caller c) s2)
        end
    end.
Proof.
  unfold BindArgs, bind at 1.
  destruct (bindFS s) as [[e|] s1|v s1]; try reflexivity.
  unfold bindCaller, bind, get_m.
  destruct (GetCallerByFS _ s1) as [c s2|v s2]; reflexivity.
Qed.

(** The three ways [BindArgs] ends. *)
Lemma BindArgs_cases (s : St) :
  (exists s1, BindArgs s = Ok None s1
              /\ In (fs (mounter s1)) fs_order
              /\ caller_ (mounter s1) = Mount_caller (fs (mounter s1))
              /\ args_ (mounter s1) = args_ (mounter s)
              /\ uuid_ (mounter s1) = uuid_ (mounter s))
  \/ (exists e s1, BindArgs s = Ok (Some e) s1
                   /\ mounter s1 = mounter s
                   /\ (e = ErrUnKFs \/ exists msg, e = ErrExec msg))
  \/ (exists s1, BindArgs s = Panic (PanicError ErrUnsFs) s1
                 /\ mounter s1 = mounter s
                 /\ ~ In (fs (mounter s)) fs_order).
Proof.
  clear uuid_New.
  rewrite BindArgs_eq.
  destruct (bindFS_returns s)
    as (e & s1 & -> & [(-> & v & Hv & Hm)|(Hm & [->|[->|[msg ->]]])]).
  - destruct (GetCallerByFS_cases (fs (mounter s1)) s1) as [[Hin ->]|[Hn _]].
    + left; eexists; split; [reflexivity|]. simpl. rewrite Hm; simpl. tauto.
    + rewrite Hm in Hn; simpl in Hn; contradiction.
  - destruct (GetCallerByFS_cases (fs (mounter s1)) s1) as [[Hin ->]|[Hn ->]].
    + left; eexists; split; [reflexivity|]. simpl. rewrite Hm in *. tauto.
    + right; right; eexists; split; [reflexivity|]. now rewrite Hm in *.
  - right; left; eexists _, _; split; [reflexivity|]; tauto.
  - right; left; eexists _, _; split; [reflexivity|]; split; [exact Hm|].
    right; now exists msg.
Qed.

(** X8: when [BindArgs] returns nil the stored type is one of ext2,
    ext3, ext4, xfs, ntfs and the stored tool is the one [Mount] uses
    for that type, with the arguments and the UUID untouched; when it
    returns an error, that is [ErrUnKFs] or an error of the launcher
    and the mounter is unchanged; it panics only with [ErrUnsFs], and
    only from a mounter whose type was no supported one before the
    call, the mounter being unchanged. *)
Theorem BindArgs_binds_type_and_tool (s : St) :
  (forall s1, BindArgs s = Ok None s1 ->
     In (fs (mounter s1)) ["ext2"; "ext3"; "ext4"; "xfs"; "ntfs"]
     /\ caller_ (mounter s1)
        = (if String.eqb (fs (mounter s1)) "ntfs" then "ntfs-3g" else "mount")
     /\ args_ (mounter s1) = args_ (mounter s)
     /\ uuid_ (mounter s1) = uuid_ (mounter s))
  /\ (forall e s1, BindArgs s = Ok (Some e) s1 ->
        mounter s1 = mounter s
        /\ (e = ErrUnKFs \/ exists msg, e = ErrExec msg))
  /\ (forall v s1, BindArgs s = Panic v s1 ->
        v = PanicError ErrUnsFs
        /\ mounter s1 = mounter s
        /\ ~ In (fs (mounter s)) ["ext2"; "ext3"; "ext4"; "xfs"; "ntfs"]).
Proof.
  clear uuid_New.
  destruct (BindArgs_cases s)
    as [(s1 & H & P)|[(e & s1 & H & P)|(s1 & H & P)]]; rewrite H;
    repeat split; intros; try discriminate;
    match goal with Heq : _ = _ |- _ => inversion Heq; subst end;
    solve [apply P | tauto].
Qed.

Lemma Check_returns (s : St) :
  (exists e s1, Check s = Ok e s1 /\ mounter s1 = mounter s
                /\ (e = None \/ e = Some ErrMount))
  \/ (exists s1, Check s = Panic (PanicCaller CMount) s1
                 /\ mounter s1 = mounter s).
Proof.
  unfold Check, bind, get_m.
  destruct (IsMount_returns (dev (args_ (mounter s))) s)
    as [(b & s1 & E1 & Hm)|(s1 & E1 & Hm)]; rewrite E1.
  - destruct b; cbv beta.
    + left; eexists _, _; split; [reflexivity|]; tauto.
    + destruct (IsMount_returns (path_ (args_ (mounter s1))) s1)
        as [(b & s2 & E2 & Hm2)|(s2 & E2 & Hm2)]; rewrite E2.
      * left; destruct b; eexists _, _; (split; [reflexivity|]);
          (split; [congruence|tauto]).
      * right; eexists; split; [reflexivity | congruence].
  - right; eexists; split; [reflexivity | exact Hm].
Qed.

Lemma MountDevice_returns (s : St) :
  exists e s1,
    MountDevice s = Ok e s1 /\ mounter s1 = mounter s
    /\ (e = None \/ e = Some ErrMount).
Proof. clear uuid_New. unfold MountDevice, bind, get_m; apply Mount_returns. Qed.

(** [Start] as the sequence of its four stages. *)
Lemma Start_eq (s : St) :
  Start s
  = match BindArgs s with
    | Panic v s1 => Panic v s1
    | Ok (Some e) s1 => Ok (Some e) s1
    | Ok None s1 =>
        match ChangeDevUUID s1 with
        | Panic v s2 => Panic v s2
        | Ok (Some e) s2 => Ok (Some e) s2
        | Ok None s2 =>
            match MountDevice s2 with
            | Panic v s3 => Panic v s3
            | Ok (Some e) s3 => Ok (Some e) s3
            | Ok None s3 =>
                match Check s3 with
                | Panic v s4 => Panic v s4
                | Ok (Some e) s4 => Ok (Some e) s4
                | Ok None s4 => Ok None s4
                end
            end
        end
    end.
Proof.
  unfold Start, bind.
  destruct (BindArgs s) as [[e1|] s1|v1 s1]; try reflexivity.
  destruct (ChangeDevUUID s1) as [[e2|] s2|v2 s2]; try reflexivity.
  destruct (MountDevice s2) as [[e3|] s3|v3 s3]; try reflexivity.
  destruct (Check s3) as [[e4|] s4|v4 s4]; reflexivity.
Qed.

(** X9: the error [Start] returns is one of [ErrUnKFs], [ErrGenUUID],
    [ErrQueryUUID], [ErrUMount], [ErrMount] or an error of the
    launcher: never [ErrUnsFs], never [ErrDevUUID]; and [Start]
    panics with [ErrUnsFs] (from [bindCaller]) or with the name of the
    mount tool (from [IsMount]) and with nothing else: no command line
    it formats is blank. *)
Theorem Start_outcomes (s : St) :
  (forall e s1, Start s = Ok (Some e) s1 ->
     In e [ErrUnKFs; ErrGenUUID; ErrQueryUUID; ErrUMount; ErrMount]
     \/ exists msg, e = ErrExec msg)
  /\ (forall v s1, Start s = Panic v s1 ->
        v = PanicError ErrUnsFs \/ v = PanicCaller "mount").
Proof.
  assert (H : (exists s1, Start s = Ok None s1)
              \/ (exists e s1, Start s = Ok (Some e) s1
                    /\ (In e [ErrUnKFs; ErrGenUUID; ErrQueryUUID; ErrUMount;
                              ErrMount]
                        \/ exists msg, e = ErrExec msg))
              \/ (exists v s1, Start s = Panic v s1
                    /\ (v = PanicError ErrUnsFs \/ v = PanicCaller "mount"))).
  { rewrite Start_eq.
    destruct (BindArgs_cases s)
      as [(s1 & EB & Hin & _)|[(e & s1 & EB & _ & He)|(s1 & EB & _)]];
      rewrite EB.
    - destruct (ChangeDevUUID_returns s1) as (e2 & s2 & EC & He2 & _).
      rewrite EC.
      destruct He2 as [->|He2].
      + destruct (MountDevice_returns s2) as (e3 & s3 & EM & _ & [->| ->]);
          rewrite EM.
        * destruct (Check_returns s3)
            as [(e4 & s4 & EK & _ & [->| ->])|(s4 & EK & _)]; rewrite EK.
          -- left; now eexists.
          -- right; left; eexists _, _; split; [reflexivity|].
             left; simpl; tauto.
          -- right; right; eexists _, _; split; [reflexivity|]; tauto.
        * right; left; eexists _, _; split; [reflexivity|].
          left; simpl; tauto.
      + right; left.
        destruct He2 as [->|[->|[->|[->|[-> Hu]]]]];
          try (eexists _, _; split; [reflexivity|]; left; simpl; tauto).
        now apply supported_dispatch in Hin.
    - right; left; eexists _, _; split; [reflexivity|].
      destruct He as [->|He]; [left; simpl; tauto | now right].
    - right; right; eexists _, _; split; [reflexivity|]; tauto. }
  split.
  - intros e s1 E.
    destruct H as [(s2 & H)|[(e' & s2 & H & P)|(v & s2 & H & P)]];
      rewrite H in E; inversion E; subst; exact P.
  - intros v s1 E.
    destruct H as [(s2 & H)|[(e' & s2 & H & P)|(v' & s2 & H & P)]];
      rewrite H in E; inversion E; subst; exact P.
Qed.

(** A [Check] that returned nil ended on a listing that exited 0 and
    showed the device or the path. *)
Lemma Check_nil_inv (s s' : St) :
  Check s = Ok None s' ->
  exists s0 out e,
    ExecCmd CMount s0 = Ok (0, out, e) s'
    /\ mounter s0 = mounter s
    /\ (Contains out (dev (args_ (mounter s)) ++ " ") = true
        \/ Contains out (path_ (args_ (mounter s)) ++ " ") = true).
Proof.
  clear uuid_New.
  intros HC.
  destruct (listing_runs s) as (r1 & out1 & e1 & w1 & H1).
  destruct (Z.eqb_spec r1 0) as [->|Hr1];
    [|rewrite (Check_panics _ _ _ _ _ H1 Hr1) in HC; discriminate].
  rewrite (Check_eq _ _ _ _ H1) in HC.
  destruct (Contains out1 _) eqn:Ed.
  - inversion HC; subst. exists s, out1, e1; repeat split; [exact H1 | tauto].
  - match type of H1 with _ = Ok _ ?st => set (s1 := st) in * end.
    destruct (listing_runs s1) as (r2 & out2 & e2 & w2 & H2).
    rewrite (IsMount_eq _ _ _ _ _ _ H2) in HC.
    destruct (Z.eqb_spec r2 0) as [->|Hr2]; [|discriminate].
    destruct (Contains out2 _) eqn:Ep; [|discriminate].
    inversion HC; subst.
    exists s1, out2, e2; repeat split; [exact H2 | tauto].
Qed.

(** X10: [Start] returns nil only when the last command it ran is the
    mount listing, that listing exited 0 and its output holds the
    device or the mount path followed by a space; the mounter then
    holds one of the five types, the tool of that type and the
    arguments it started with. *)
Theorem Start_nil_after_listing (s s' : St) :
  Start s = Ok None s' ->
  (exists s0 out e,
     ExecCmd CMount s0 = Ok (0, out, e) s'
     /\ trace s' = (trace s0 ++ ["mount"])%list
     /\ (Contains out (dev (args_ (mounter s)) ++ " ") = true
         \/ Contains out (path_ (args_ (mounter s)) ++ " ") = true))
  /\ In (fs (mounter s')) ["ext2"; "ext3"; "ext4"; "xfs"; "ntfs"]
  /\ caller_ (mounter s')
     = (if String.eqb (fs (mounter s')) "ntfs" then "ntfs-3g" else "mount")
  /\ args_ (mounter s') = args_ (mounter s).
Proof.
  rewrite Start_eq.
  destruct (BindArgs_cases s)
    as [(s1 & EB & Hin & Hc & Ha & _)|[(e & s1 & EB & _)|(s1 & EB & _)]];
    rewrite EB; [|discriminate..].
  destruct (ChangeDevUUID_returns s1) as (e2 & s2 & EC & _ & [u Hu] & _).
  rewrite EC. destruct e2; [discriminate|].
  destruct (MountDevice_returns s2) as (e3 & s3 & EM & Hm3 & _).
  rewrite EM. destruct e3; [discriminate|].
  destruct (Check s3) as [[e4|] s4|v s4] eqn:EK; try discriminate.
  intros E; inversion E; subst s4.
  destruct (Check_nil_inv _ _ EK) as (s0 & out & e & H0 & Hm0 & Hseen).
  destruct (ExecCmd_ok_inv _ _ _ _ H0) as [Ht Hm'].
  assert (Hm : mounter s' = with_uuid u (mounter s1)) by congruence.
  assert (Ha3 : args_ (mounter s3) = args_ (mounter s)).
  { rewrite Hm3, Hu; simpl; exact Ha. }
  rewrite Ha3 in Hseen.
  split; [exists s0, out, e; repeat split; assumption|].
  rewrite Hm; simpl. repeat split; assumption.
Qed.

(** ** The UUID the query records *)

Lemma all_bytes_app p (a b : string) :
  all_bytes p (a ++ b) = (all_bytes p a && all_bytes p b)%bool.
Proof.
  induction a as [|c a IH]; simpl; [reflexivity|].
  now rewrite IH, andb_assoc.
Qed.

Lemma lower_byte_not_upper (c : ascii) : is_upper (lower_byte c) = false.
Proof. destruct c as [[] [] [] [] [] [] [] []]; reflexivity. Qed.

Lemma ToLower_no_upper (s : string) :
  all_bytes (fun c => negb (is_upper c)) (ToLower s) = true.
Proof.
  induction s as [|c s IH]; simpl; [reflexivity|].
  now rewrite lower_byte_not_upper, IH.
Qed.

Lemma all_bytes_and p q (s : string) :
  all_bytes p s = true -> all_bytes q s = true ->
  all_bytes (fun c => p c && q c)%bool s = true.
Proof.
  induction s as [|c s IH]; simpl; [reflexivity|].
  intros Hp Hq.
  apply andb_true_iff in Hp as [Hp1 Hp2].
  apply andb_true_iff in Hq as [Hq1 Hq2].
  now rewrite Hp1, Hq1, IH.
Qed.

(** X11: a UUID that [QueryDeviceUUID] returns with a nil error holds
    no capital letter, no double quote and no newline (the output is
    lower-cased before it is searched, so the UUID is not spelled as
    the tool printed it); with an error the returned UUID is empty and
    the error is [ErrDevUUID]. *)
Theorem QueryDeviceUUID_uuid_bytes (dev0 : string) (s s1 : St) u e :
  QueryDeviceUUID dev0 s = Ok (u, e) s1 ->
  (e = None -> all_bytes uuid_byte u = true)
  /\ (e <> None -> e = Some ErrDevUUID /\ u = EmptyString).
Proof.
  clear uuid_New.
  destruct (ExecCmd_runs "b" ("lkid | grep " ++ dev0) s eq_refl)
    as (r & out & e0 & w & H).
  rewrite (QueryDeviceUUID_eq _ _ _ _ _ _ H).
  destruct (r =? 0).
  - destruct (regexp.find_uuid (ToLower out)) as [u'|] eqn:F;
      intros E; injection E as Eu Ee Es; subst u e s1;
      split; try tauto; try discriminate.
    intros _.
    destruct (find_uuid_inv _ _ F) as (pre & post & Hd).
    pose proof (ToLower_no_upper out) as Hl. rewrite Hd in Hl.
    rewrite !all_bytes_app in Hl.
    apply andb_true_iff in Hl as [_ Hl].
    apply andb_true_iff in Hl as [_ Hl].
    apply andb_true_iff in Hl as [Hl _].
    apply find_uuid_bytes in F.
    unfold uuid_byte.
    pose proof (all_bytes_and _ _ _ Hl F) as Hb.
    erewrite <- Hb. clear.
    induction u' as [|c u' IH]; simpl; [reflexivity|].
    now rewrite IH, andb_assoc.
  - intros E; inversion E; subst; split; [discriminate | tauto].
Qed.

(** X12: the query [blkid] always runs, and [QueryDeviceUUID] returns a
    UUID with a nil error exactly when [blkid] exits 0 and its
    lower-cased output holds the key, then on the same line a double
    quote; in every other case it returns [ErrDevUUID]. *)
Theorem QueryDeviceUUID_succeeds_iff_match (dev0 : string) (s : St) :
  exists r out e s1,
    ExecCmd ("blkid | grep " ++ dev0) s = Ok (r, out, e) s1
    /\ let found :=
         r = 0
         /\ exists pre u post,
              ToLower out
              = pre ++ "uuid=" ++ String dquote (u ++ String dquote post)
              /\ all_bytes (fun c => negb (Ascii.eqb c newline)) u = true in
       ((exists u, QueryDeviceUUID dev0 s = Ok (u, None) s1) <-> found)
       /\ (QueryDeviceUUID dev0 s = Ok (EmptyString, Some ErrDevUUID) s1
           <-> ~ found).
Proof.
  destruct (ExecCmd_runs "b" ("lkid | grep " ++ dev0) s eq_refl)
    as (r & out & e & w & H).
  match type of H with _ = Ok _ ?st => set (s1 := st) in * end.
  exists r, out, e, s1; split; [exact H|].
  intros found. rewrite (QueryDeviceUUID_eq _ _ _ _ _ _ H).
  assert (Hfound : found <->
                   (r = 0 /\ regexp.find_uuid (ToLower out) <> None)).
  { unfold found; split.
    - intros (Hr & pre & u & post & Hd & Hn); split; [exact Hr|].
      rewrite Hd. now apply (find_uuid_complete pre u post).
    - intros (Hr & Hf); split; [exact Hr|].
      destruct (regexp.find_uuid (ToLower out)) as [u|] eqn:F;
        [|contradiction].
      destruct (find_uuid_inv _ _ F) as (pre & post & Hd).
      exists pre, u, post; split; [exact Hd|].
      apply find_uuid_bytes in F. clear - F.
      induction u as [|c u IH]; simpl in *; [reflexivity|].
      apply andb_true_iff in F as [Fc Fu].
      apply andb_true_iff in Fc as [_ Fc].
      now rewrite Fc, IH. }
  rewrite Hfound.
  destruct (Z.eqb_spec r 0) as [Hr|Hr].
  - destruct (regexp.find_uuid (ToLower out)) as [u|]; split; split.
    + intros _; split; [exact Hr | discriminate].
    + intros _; now exists u.
    + discriminate.
    + intros Hn; exfalso; apply Hn; split; [exact Hr | discriminate].
    + intros [u Hu]; discriminate.
    + intros [_ Hc]; now contradiction Hc.
    + intros _ [_ Hc]; now apply Hc.
    + reflexivity.
  - split; split.
    + intros [u Hu]; discriminate.
    + intros [Hc _]; contradiction.
    + intros _ [Hc _]; contradiction.
    + reflexivity.
Qed.

(** ** How many processes a call starts *)

Lemma bound_quiet {A : Type} (n : nat) (c : Go A) :
  (forall s, trace (final_state (c s)) = trace s) -> starts_at_most n c.
Proof.
  intros H s; exists []; rewrite H, app_nil_r; split; [reflexivity|].
  simpl; lia.
Qed.

Lemma bound_ret {A : Type} (n : nat) (a : A) : starts_at_most n (ret a).
Proof. now apply bound_quiet. Qed.

Lemma bound_panic {A : Type} (n : nat) (v : panic_value) :
  starts_at_most n (@panic St A v).
Proof. now apply bound_quiet. Qed.

Lemma bound_get_m (n : nat) : starts_at_most n get_m.
Proof. now apply bound_quiet. Qed.

Lemma bound_set_fs (n : nat) v : starts_at_most n (set_fs v).
Proof. now apply bound_quiet. Qed.

Lemma bound_set_caller (n : nat) c : starts_at_most n (set_caller c).
Proof. now apply bound_quiet. Qed.

Lemma bound_set_uuid (n : nat) u : starts_at_most n (set_uuid u).
Proof. now apply bound_quiet. Qed.

Lemma bound_new_uuid (n : nat) : starts_at_most n new_uuid.
Proof.
  apply bound_quiet; intros s; unfold new_uuid.
  now destruct (uuid_New (world s)).
Qed.

Lemma bound_ExecCmd cmdStr : starts_at_most 1 (ExecCmd cmdStr).
Proof.
  intros s; unfold ExecCmd; destruct (Fields cmdStr).
  - exists []; simpl; rewrite app_nil_r; split; [reflexivity | lia].
  - destruct (cmd_Start _ _ _); exists [cmdStr]; simpl.
    split; [reflexivity | lia].
Qed.

Lemma bound_le {A : Type} (n m : nat) (c : Go A) :
  starts_at_most n c -> (n <= m)%nat -> starts_at_most m c.
Proof.
  intros H Hle s; destruct (H s) as (t & Ht & Hl).
  exists t; split; [exact Ht | lia].
Qed.

Lemma bound_bind {A B : Type} (n1 n2 n : nat) (c : Go A) (k : A -> Go B) :
  (n1 + n2 <= n)%nat ->
  starts_at_most n1 c -> (forall a, starts_at_most n2 (k a)) ->
  starts_at_most n (bind c k).
Proof.
  intros Hn Hc Hk s; unfold bind.
  destruct (Hc s) as (t1 & Ht1 & Hl1).
  destruct (c s) as [a s'|v s']; simpl in *.
  - destruct (Hk a s') as (t2 & Ht2 & Hl2).
    exists (t1 ++ t2)%list; split.
    + now rewrite Ht2, Ht1, app_assoc.
    + rewrite length_app; lia.
  - exists t1; split; [exact Ht1 | lia].
Qed.

Create HintDb bound.
#[local] Hint Resolve bound_ret bound_panic bound_get_m bound_set_fs
  bound_set_caller bound_set_uuid bound_new_uuid bound_ExecCmd : bound.

(** Split a bind, giving [k] processes to its first part. *)
Ltac bound_bind_with k :=
  match goal with
  | |- starts_at_most ?N (bind _ _) =>
      let n2 := eval compute in (N - k)%nat in
      apply (bound_bind k n2 N); [simpl; lia | solve [auto with bound] | ]
  end.
Ltac bound_step :=
  match goal with
  | |- starts_at_most _ (bind _ _) =>
      first [ bound_bind_with 0%nat | bound_bind_with 1%nat
            | bound_bind_with 2%nat | bound_bind_with 3%nat ]
  | |- forall _, _ => intro
  | x : (_ * _)%type |- _ => destruct x
  | |- starts_at_most _ (let _ := _ in _) => cbv zeta
  | |- starts_at_most _ (if ?b then _ else _) => destruct b
  | |- starts_at_most _ (match ?x with Some _ => _ | None => _ end) =>
      destruct x
  | |- starts_at_most _ _ =>
      solve [ auto with bound
            | eapply bound_le; [solve [auto with bound] | simpl; lia] ]
  end.
Ltac bound := repeat bound_step.

Lemma bound_GetCallerByFS n f : starts_at_most n (GetCallerByFS f).
Proof. unfold GetCallerByFS; bound. Qed.

Lemma bound_QueryDeviceUUID d : starts_at_most 1 (QueryDeviceUUID d).
Proof. unfold QueryDeviceUUID; bound. Qed.

Lemma bound_UMount p : starts_at_most 1 (UMount p).
Proof. unfold UMount; bound. Qed.

Lemma bound_Mount f d p c : starts_at_most 1 (Mount f d p c).
Proof. unfold Mount; bound. Qed.

Lemma bound_IsMount p : starts_at_most 1 (IsMount p).
Proof. unfold IsMount; bound. Qed.

Lemma bound_GenExtDevUUID d : starts_at_most 1 (GenExtDevUUID d).
Proof. unfold GenExtDevUUID; bound. Qed.

Lemma bound_GenXFSDevUUID u d : starts_at_most 1 (GenXFSDevUUID u d).
Proof. unfold GenXFSDevUUID; bound. Qed.

#[local] Hint Resolve bound_GetCallerByFS bound_QueryDeviceUUID bound_UMount
  bound_Mount bound_IsMount bound_GenExtDevUUID bound_GenXFSDevUUID : bound.

Lemma bound_changeEXT : starts_at_most 2 changeEXT.
Proof. unfold changeEXT; bound. Qed.

Lemma bound_registerXFSDev f d p :
  starts_at_most 2 (registerXFSDev f d p).
Proof. unfold registerXFSDev; bound. Qed.

#[local] Hint Resolve bound_changeEXT bound_registerXFSDev : bound.

Lemma bound_changeXFS : starts_at_most 3 changeXFS.
Proof. unfold changeXFS; bound. Qed.

Lemma bound_changeNTFs n : starts_at_most n changeNTFs.
Proof. unfold changeNTFs; bound. Qed.

#[local] Hint Resolve bound_changeXFS bound_changeNTFs : bound.

Lemma bound_ChangeDevUUID : starts_at_most 3 ChangeDevUUID.
Proof. unfold ChangeDevUUID; bound. Qed.

Lemma bound_MountDevice : starts_at_most 1 MountDevice.
Proof. unfold MountDevice; bound. Qed.

Lemma bound_Check : starts_at_most 2 Check.
Proof. unfold Check; bound. Qed.

(** [BindArgs] runs the probe and nothing else, however it ends. *)
Lemma BindArgs_trace (s : St) :
  trace (final_state (BindArgs s))
  = (trace s ++ [("file -sL " ++ dev (args_ (mounter s)))%string])%list.
Proof.
  rewrite BindArgs_eq.
  destruct (probe_runs (dev (args_ (mounter s))) s) as (r & out & e & w & H).
  rewrite (bindFS_eq _ _ _ _ _ H).
  destruct (r =? 0).
  - match goal with |- context [bindFS_loop ?o ?vs ?s1] =>
      destruct (bindFS_loop_cases o vs s1) as [E|(v & Hv & E)]; rewrite E
    end; [reflexivity|].
    match goal with |- context [GetCallerByFS ?f ?s1] =>
      destruct (GetCallerByFS_cases f s1) as [[_ E']|[_ E']]; rewrite E'
    end; reflexivity.
  - destruct e; [reflexivity|].
    match goal with |- context [GetCallerByFS ?f ?s1] =>
      destruct (GetCallerByFS_cases f s1) as [[_ E']|[_ E']]; rewrite E'
    end; reflexivity.
Qed.

(** X13: however it ends, [Start] has started the probe
    [file -sL dev] first and at most six processes after it: three for
    the UUID strategy, one for the mount, two for the listings. *)
Theorem Start_starts_at_most_seven (s : St) :
  exists t,
    trace (final_state (Start s))
    = (trace s ++ ("file -sL " ++ dev (args_ (mounter s)))%string :: t)%list
    /\ (length t <= 6)%nat.
Proof.
  pose proof (BindArgs_trace s) as HB.
  rewrite Start_eq.
  destruct (BindArgs s) as [[e1|] s1|v1 s1]; cbn [final_state] in HB |- *;
    try (exists []; rewrite HB; split; [reflexivity | simpl; lia]).
  destruct (bound_ChangeDevUUID s1) as (t2 & H2 & L2).
  destruct (ChangeDevUUID s1) as [[e2|] s2|v2 s2];
    cbn [final_state] in H2 |- *;
    try (exists t2; rewrite H2, HB, <- app_assoc; split;
         [reflexivity | lia]).
  destruct (bound_MountDevice s2) as (t3 & H3 & L3).
  destruct (MountDevice s2) as [[e3|] s3|v3 s3];
    cbn [final_state] in H3 |- *;
    try (exists (t2 ++ t3)%list; rewrite H3, H2, HB, <- !app_assoc; split;
         [reflexivity | rewrite length_app; lia]).
  destruct (bound_Check s3) as (t4 & H4 & L4).
  exists (t2 ++ t3 ++ t4)%list.
  assert (E : trace (final_state (Check s3))
              = (trace s ++ ("file -sL " ++ dev (args_ (mounter s)))%string
                         :: t2 ++ t3 ++ t4)%list).
  { rewrite H4, H3, H2, HB, <- !app_assoc. reflexivity. }
  split; [|rewrite !length_app; lia].
  destruct (Check s3) as [[e4|] s4|v4 s4]; exact E.
Qed.

(** ** The stored tool is never read *)

Lemma blind_ret {A : Type} (a : A) : blind (ret a).
Proof. intros s s' H; simpl; tauto. Qed.

Lemma blind_panic {A : Type} (v : panic_value) : blind (@panic St A v).
Proof. intros s s' H; simpl; tauto. Qed.

Lemma blind_bind {A B : Type} (c : Go A) (k : A -> Go B) :
  blind c -> (forall a, blind (k a)) -> blind (bind c k).
Proof.
  intros Hc Hk s s' H; unfold bind.
  specialize (Hc s s' H).
  destruct (c s) as [a s1|v s1], (c s') as [a' s1'|v' s1']; simpl in Hc;
    try contradiction.
  - destruct Hc as [<- H1]. now apply Hk.
  - exact Hc.
Qed.

(** A continuation of [get_m] that uses the mounter for its arguments,
    type and UUID alone. *)
Lemma blind_bind_get_m {B : Type} (k : DevMounter Ctx -> Go B) :
  (forall m, blind (k m)) ->
  (forall m m', mounter_but_caller m m' -> k m = k m') ->
  blind (bind get_m k).
Proof.
  intros Hk Heq s s' H; unfold bind, get_m.
  rewrite (Heq (mounter s) (mounter s')) by apply H.
  now apply Hk.
Qed.

Lemma blind_set_fs v : blind (set_fs v).
Proof.
  intros s s' (Hw & Ht & Ha & Hf & Hu); simpl.
  unfold same_but_caller, mounter_but_caller; simpl; tauto.
Qed.

Lemma blind_set_caller c : blind (set_caller c).
Proof.
  intros s s' (Hw & Ht & Ha & Hf & Hu); simpl.
  unfold same_but_caller, mounter_but_caller; simpl; tauto.
Qed.

Lemma blind_set_uuid u : blind (set_uuid u).
Proof.
  intros s s' (Hw & Ht & Ha & Hf & Hu); simpl.
  unfold same_but_caller, mounter_but_caller; simpl; tauto.
Qed.

Lemma blind_new_uuid : blind new_uuid.
Proof.
  intros s s' (Hw & Ht & Hm); unfold new_uuid; rewrite <- Hw.
  destruct (uuid_New (world s)); simpl.
  unfold same_but_caller; simpl; tauto.
Qed.

Lemma blind_ExecCmd cmdStr : blind (ExecCmd cmdStr).
Proof.
  clear uuid_New.
  intros s s' (Hw & Ht & Hm); unfold ExecCmd.
  destruct (Fields cmdStr); simpl.
  - unfold same_but_caller; tauto.
  - rewrite <- Hw. destruct (cmd_Start _ _ _); simpl.
    unfold same_but_caller; simpl; rewrite Ht; tauto.
Qed.

Create HintDb blind.
#[local] Hint Resolve blind_ret blind_panic blind_set_fs blind_set_caller
  blind_set_uuid blind_new_uuid blind_ExecCmd : blind.

Ltac blind_step :=
  match goal with
  | |- blind (bind get_m _) =>
      apply blind_bind_get_m;
      [ intro
      | let Ha := fresh in let Hf := fresh in let Hu := fresh in
        intros ? ? (Ha & Hf & Hu); rewrite ?Ha, ?Hf, ?Hu; reflexivity ]
  | |- blind (bind _ _) => apply blind_bind
  | |- forall _, _ => intro
  | x : (_ * _)%type |- _ => destruct x
  | |- blind (let _ := _ in _) => cbv zeta
  | |- blind (if ?b then _ else _) => destruct b
  | |- blind (match ?x with Some _ => _ | None => _ end) => destruct x
  | |- blind _ => solve [auto with blind]
  end.
Ltac blind_tac := repeat blind_step.

Lemma blind_GetCallerByFS f : blind (GetCallerByFS f).
Proof. unfold GetCallerByFS; blind_tac. Qed.

Lemma blind_QueryDeviceUUID d : blind (QueryDeviceUUID d).
Proof. clear uuid_New. unfold QueryDeviceUUID; blind_tac. Qed.

Lemma blind_UMount p : blind (UMount p).
Proof. clear uuid_New. unfold UMount; blind_tac. Qed.

Lemma blind_Mount f d p c : blind (Mount f d p c).
Proof. clear uuid_New. unfold Mount; blind_tac. Qed.

Lemma blind_IsMount p : blind (IsMount p).
Proof. clear uuid_New. unfold IsMount; blind_tac. Qed.

Lemma blind_GenExtDevUUID d : blind (GenExtDevUUID d).
Proof. clear uuid_New. unfold GenExtDevUUID; blind_tac. Qed.

Lemma blind_GenXFSDevUUID u d : blind (GenXFSDevUUID u d).
Proof. clear uuid_New. unfold GenXFSDevUUID; blind_tac. Qed.

#[local] Hint Resolve blind_GetCallerByFS blind_QueryDeviceUUID blind_UMount
  blind_Mount blind_IsMount blind_GenExtDevUUID blind_GenXFSDevUUID : blind.

Lemma blind_changeEXT : blind changeEXT.
Proof. clear uuid_New. unfold changeEXT; blind_tac. Qed.

Lemma blind_registerXFSDev f d p : blind (registerXFSDev f d p).
Proof. clear uuid_New. unfold registerXFSDev; blind_tac. Qed.

#[local] Hint Resolve blind_changeEXT blind_registerXFSDev : blind.

Lemma blind_changeXFS : blind changeXFS.
Proof. unfold changeXFS; blind_tac. Qed.

Lemma blind_changeNTFs : blind changeNTFs.
Proof. unfold changeNTFs; blind_tac. Qed.

#[local] Hint Resolve blind_changeXFS blind_changeNTFs : blind.

Lemma blind_ChangeDevUUID : blind ChangeDevUUID.
Proof. unfold ChangeDevUUID; blind_tac. Qed.

Lemma blind_MountDevice : blind MountDevice.
Proof. clear uuid_New. unfold MountDevice; blind_tac. Qed.

Lemma blind_Check : blind Check.
Proof. clear uuid_New. unfold Check; blind_tac. Qed.

Lemma blind_bindFS_loop out vs : blind (bindFS_loop out vs).
Proof. induction vs as [|v vs IH]; simpl; blind_tac. Qed.

#[local] Hint Resolve blind_bindFS_loop : blind.

Lemma blind_bindFS : blind bindFS.
Proof. clear uuid_New. unfold bindFS; blind_tac. Qed.

Lemma blind_bindCaller : blind bindCaller.
Proof. unfold bindCaller; blind_tac. Qed.

#[local] Hint Resolve blind_bindFS blind_bindCaller : blind.

Lemma blind_BindArgs : blind BindArgs.
Proof. clear uuid_New. unfold BindArgs; blind_tac. Qed.

#[local] Hint Resolve blind_BindArgs blind_ChangeDevUUID blind_MountDevice
  blind_Check : blind.

Lemma blind_Start : blind Start.
Proof. unfold Start; blind_tac. Qed.

(** X14: the tool [BindArgs] stores in [caller_] is never read: run
    from two states that differ in [caller_] alone, each of
    [BindArgs], [ChangeDevUUID], [MountDevice], [Check] and [Start]
    ends the same way (the same error, nil or panic), having run the
    same commands on the same machine, and leaves mounters that differ
    in [caller_] at most. *)
Theorem caller_is_never_read (c : Caller_) (s : St) :
  forall stage : Go (option error),
    In stage [BindArgs; ChangeDevUUID; MountDevice; Check; Start] ->
    match stage s, stage (upd_mounter (with_caller c) s) with
    | Ok e s1, Ok e' s1' =>
        e = e' /\ world s1 = world s1' /\ trace s1 = trace s1'
        /\ args_ (mounter s1) = args_ (mounter s1')
        /\ fs (mounter s1) = fs (mounter s1')
        /\ uuid_ (mounter s1) = uuid_ (mounter s1')
    | Panic v s1, Panic v' s1' =>
        v = v' /\ world s1 = world s1' /\ trace s1 = trace s1'
        /\ args_ (mounter s1) = args_ (mounter s1')
        /\ fs (mounter s1) = fs (mounter s1')
        /\ uuid_ (mounter s1) = uuid_ (mounter s1')
    | _, _ => False
    end.
Proof.
  intros stage Hin.
  assert (Hs : same_but_caller s (upd_mounter (with_caller c) s)).
  { unfold same_but_caller, mounter_but_caller; simpl; tauto. }
  assert (Hb : blind stage).
  { simpl in Hin. destruct Hin as [<-|[<-|[<-|[<-|[<-|[]]]]]].
    - apply blind_BindArgs.
    - apply blind_ChangeDevUUID.
    - apply blind_MountDevice.
    - apply blind_Check.
    - apply blind_Start. }
  specialize (Hb _ _ Hs).
  destruct (stage s), (stage (upd_mounter (with_caller c) s)); simpl in Hb;
    try contradiction;
    unfold same_but_caller, mounter_but_caller in Hb; tauto.
Qed.

(** ** Mounting and checking, and the run on ntfs *)

(** X15: [MountDevice] never panics, returns nil or [ErrMount] and
    leaves the mounter as it found it; [Check] returns nil or
    [ErrMount], or panics with the name of the mount tool, and leaves
    the mounter as it found it too. *)
Theorem MountDevice_and_Check_outcomes (s : St) :
  (exists e s1,
     MountDevice s = Ok e s1 /\ In e [None; Some ErrMount]
     /\ mounter s1 = mounter s)
  /\ ((exists e s1,
         Check s = Ok e s1 /\ In e [None; Some ErrMount]
         /\ mounter s1 = mounter s)
      \/ (exists s1,
            Check s = Panic (PanicCaller "mount") s1
            /\ mounter s1 = mounter s)).
Proof.
  clear uuid_New.
  split.
  - destruct (MountDevice_returns s) as (e & s1 & H & Hm & He).
    exists e, s1; repeat split;
      [exact H | destruct He as [->| ->]; simpl; tauto | exact Hm].
  - destruct (Check_returns s) as [(e & s1 & H & Hm & He)|(s1 & H & Hm)].
    + left; exists e, s1; repeat split;
        [exact H | destruct He as [->| ->]; simpl; tauto | exact Hm].
    + right; exists s1; split; [exact H | exact Hm].
Qed.

(** The lines [Check] adds to the trace: one listing or two. *)
Lemma Check_trace (s : St) :
  trace (final_state (Check s)) = (trace s ++ ["mount"])%list
  \/ trace (final_state (Check s)) = (trace s ++ ["mount"; "mount"])%list.
Proof.
  destruct (listing_runs s) as (r1 & out1 & e1 & w1 & H1).
  destruct (Z.eqb_spec r1 0) as [->|Hr1];
    [|rewrite (Check_panics _ _ _ _ _ H1 Hr1); now left].
  rewrite (Check_eq _ _ _ _ H1).
  destruct (Contains out1 _); [now left|].
  match type of H1 with _ = Ok _ ?st => set (s1 := st) in * end.
  destruct (listing_runs s1) as (r2 & out2 & e2 & w2 & H2).
  rewrite (IsMount_eq _ _ _ _ _ _ H2).
  right.
  destruct (r2 =? 0); [destruct (Contains out2 _)|];
    simpl; now rewrite <- app_assoc.
Qed.

(** X16: on a device bound as ntfs no UUID tool runs: right after the
    probe [Start] runs [ntfs-3g] on the device and the path (the empty
    options leave two spaces in the line); when that exits nonzero
    [Start] returns [ErrMount] and nothing more has run; when it
    exits 0 [Start] ends as [Check] does and exactly one or two
    listings have run after the mount; in both cases the recorded
    UUID stays what it was. *)
Theorem Start_on_ntfs (s s1 : St) :
  BindArgs s = Ok None s1 ->
  fs (mounter s1) = FsNTFs ->
  let d := dev (args_ (mounter s)) in
  let p := path_ (args_ (mounter s)) in
  let probe := "file -sL " ++ d in
  let line := "ntfs-3g  " ++ d ++ " " ++ p in
  exists r out e s2,
    ExecCmd line s1 = Ok (r, out, e) s2
    /\ trace s2 = (trace s ++ [probe; line])%list
    /\ (r <> 0 -> Start s = Ok (Some ErrMount) s2)
    /\ (r = 0 ->
        Start s = Check s2
        /\ exists t,
             trace (final_state (Start s))
             = (trace s ++ [probe; line] ++ t)%list
             /\ In t [["mount"]; ["mount"; "mount"]])
    /\ uuid_ (mounter (final_state (Start s))) = uuid_ (mounter s).
Proof.
  intros HB Hfs d p probe line.
  pose proof (BindArgs_trace s) as Ht1. rewrite HB in Ht1.
  cbn [final_state] in Ht1. fold d in Ht1. fold probe in Ht1.
  assert (Hm1 : args_ (mounter s1) = args_ (mounter s)
                /\ uuid_ (mounter s1) = uuid_ (mounter s)).
  { destruct (BindArgs_cases s)
      as [(s1' & E & _ & _ & Ha & Hu)|[(e & s1' & E & _)|(s1' & E & _)]];
      rewrite HB in E; inversion E; subst; tauto. }
  destruct Hm1 as [Ha1 Hu1].
  assert (HC : ChangeDevUUID s1 = Ok None s1).
  { unfold ChangeDevUUID, bind, get_m. now rewrite Hfs. }
  assert (HS : Start s
               = match MountDevice s1 with
                 | Panic v s3 => Panic v s3
                 | Ok (Some e) s3 => Ok (Some e) s3
                 | Ok None s3 => Check s3
                 end).
  { rewrite Start_eq, HB, HC.
    destruct (MountDevice s1) as [[e3|] s3|v3 s3]; try reflexivity.
    destruct (Check s3) as [[e4|] s4|v4 s4]; reflexivity. }
  assert (HM : MountDevice s1 = Mount FsNTFs d p EmptyString s1).
  { unfold MountDevice, bind, get_m. now rewrite Hfs, Ha1. }
  destruct (Mount_cmd_runs FsNTFs d p EmptyString s1)
    as (r & out & e & w & H).
  rewrite HM, (Mount_eq _ _ _ _ _ _ _ _ _ H) in HS.
  match type of H with _ = Ok _ ?st => set (s2 := st) in * end.
  assert (Ht2 : trace s2 = (trace s ++ [probe; line])%list).
  { unfold s2; cbn [trace]. rewrite Ht1, <- app_assoc. reflexivity. }
  exists r, out, e, s2; split; [exact H|]; split; [exact Ht2|].
  assert (Hmf : mounter (final_state (Check s2)) = mounter s1).
  { destruct (Check_returns s2)
      as [(e4 & s4 & E & Hm & _)|(s4 & E & Hm)]; rewrite E; exact Hm. }
  split; [|split].
  - intros Hr. now rewrite HS, (eqb_neq_Z _ Hr).
  - intros ->. cbn [Z.eqb] in HS. split; [exact HS|].
    rewrite HS.
    destruct (Check_trace s2) as [Hf|Hf]; rewrite Hf, Ht2.
    + exists ["mount"]; split; [now rewrite <- app_assoc | simpl; tauto].
    + exists ["mount"; "mount"]; split;
        [now rewrite <- app_assoc | simpl; tauto].
  - rewrite HS. destruct (r =? 0); cbn [final_state].
    + now rewrite Hmf.
    + exact Hu1.
Qed.

End Program.

(** ** Concrete runs *)

(** An unknown file system: [BindArgs] fails, [Start] returns its
    error and only the probe has run. *)
Lemma Start_stages_in_order_witness :
  Start Script.World string Script.cmd_Start Script.uuid_New
    (Script.fresh [Script.exits 0 ["/dev/sdb1: data"]] "/dev/sdb1" "/mnt/data")
  = Ok (Some ErrUnKFs)
       {| world := []; trace := ["file -sL /dev/sdb1"];
          mounter := NewMounterWithArgs "/dev/sdb1" "/mnt/data" "{}" |}.
Proof.
  exact (proj1 (Start_stages_in_order Script.World string Script.cmd_Start
                  Script.uuid_New
                  (Script.fresh [Script.exits 0 ["/dev/sdb1: data"]]
                     "/dev/sdb1" "/mnt/data"))).
Defined.

(** A probe that names ext4 and no other type binds ext4. *)
Lemma bindFS_first_match_wins_witness :
  exists s1,
    bindFS Script.World string Script.cmd_Start
      (Script.fresh Script.ext4_run "/dev/sdb1" "/mnt/data")
    = Ok None s1
    /\ fs (mounter s1) = FsExt4
    /\ trace s1 = ["file -sL /dev/sdb1"].
Proof.
  destruct (bindFS_first_match_wins Script.World string Script.cmd_Start
              (Script.fresh Script.ext4_run "/dev/sdb1" "/mnt/data"))
    as (_ & r & out & e & s1 & H & Hr).
  vm_compute in H; inversion H; subst r out e s1; clear H.
  destruct (Hr eq_refl) as (_ & Hone & _).
  eexists; split.
  - apply (Hone FsExt4).
    + simpl; tauto.
    + reflexivity.
    + intros u Hu Hne; simpl in Hu.
      destruct Hu as [<-|[<-|[<-|[<-|[<-|[]]]]]];
        solve [reflexivity | now contradiction Hne].
  - split; reflexivity.
Defined.

(** An xfs device whose registration mount fails: [ErrMount], and
    neither [umount] nor [xfs_admin] has run. *)
Lemma changeXFS_mount_umount_then_set_witness :
  exists s1,
    changeXFS Script.World string Script.cmd_Start Script.uuid_New
      (Script.bound [Script.exits 32 []] "/dev/sdb1" "/mnt/data" "xfs")
    = Ok (Some ErrMount) s1
    /\ trace s1 = ["mount -o rw,nouuid /dev/sdb1 /mnt/data"].
Proof.
  destruct (changeXFS_mount_umount_then_set Script.World string
              Script.cmd_Start Script.uuid_New
              (Script.bound [Script.exits 32 []]
                 "/dev/sdb1" "/mnt/data" "xfs"))
    as (_ & r1 & out1 & e1 & s1 & H & Ht & Hfail & _).
  vm_compute in H; inversion H; subst r1 out1 e1 s1; clear H.
  eexists; split; [apply Hfail; discriminate | reflexivity].
Defined.

(** An ext4 device: the UUID of the query is recorded, lower-cased. *)
Lemma changeEXT_randomize_then_query_witness :
  exists s2,
    changeEXT Script.World string Script.cmd_Start
      (Script.bound [Script.exits 0 [];
                     Script.exits 0 [Script.blkid_line "1234-ABCD"]]
         "/dev/sdb1" "/mnt/data" "ext4")
    = Ok None s2
    /\ uuid_ (mounter s2) = "1234-abcd"
    /\ trace s2 = ["tune2fs -U random /dev/sdb1"; "blkid | grep /dev/sdb1"].
Proof.
  destruct (changeEXT_randomize_then_query Script.World string
              Script.cmd_Start
              (Script.bound [Script.exits 0 [];
                             Script.exits 0 [Script.blkid_line "1234-ABCD"]]
                 "/dev/sdb1" "/mnt/data" "ext4"))
    as (r1 & out1 & e1 & s1 & H1 & _ & _ & Hok).
  vm_compute in H1; inversion H1; subst r1 out1 e1 s1; clear H1.
  destruct (Hok eq_refl)
    as (r2 & out2 & e2 & s2 & H2 & _ & _ & Hfound & _).
  vm_compute in H2; inversion H2; subst r2 out2 e2 s2; clear H2.
  destruct (Hfound eq_refl "1234-abcd" eq_refl) as [Hrun _].
  eexists; split; [exact Hrun | split; reflexivity].
Defined.

(** A listed device is mounted. *)
Lemma IsMount_true_iff_followed_by_space_witness :
  exists s1,
    IsMount Script.World string Script.cmd_Start "/dev/sdb1"
      (Script.bound [Script.exits 0 ["/dev/sdb1 on /mnt/data type ext4 (rw)"]]
         "/dev/sdb1" "/mnt/data" "ext4")
    = Ok true s1.
Proof.
  destruct (IsMount_true_iff_followed_by_space Script.World string
              Script.cmd_Start "/dev/sdb1"
              (Script.bound
                 [Script.exits 0 ["/dev/sdb1 on /mnt/data type ext4 (rw)"]]
                 "/dev/sdb1" "/mnt/data" "ext4"))
    as (r & out & e & s1 & H & _ & Hr).
  vm_compute in H; inversion H; subst r out e s1; clear H.
  destruct (Hr eq_refl) as [Hrun _].
  eexists; exact Hrun.
Defined.

(** ext3 is mounted by the generic tool. *)
Lemma GetCallerByFS_and_Mount_tool_witness :
  GetCallerByFS Script.World string "ext3" (Script.fresh [] "/dev/sdb1" "/mnt")
  = Ok "mount" (Script.fresh [] "/dev/sdb1" "/mnt").
Proof.
  apply (GetCallerByFS_and_Mount_tool Script.World string Script.cmd_Start).
  simpl; tauto.
Defined.


(** A listing that exits 1 makes [Check] panic. *)
Lemma IsMount_panics_when_listing_fails_witness :
  exists s1,
    Check Script.World string Script.cmd_Start
      (Script.bound [Script.exits 1 []] "/dev/sdb1" "/mnt/data" "ext4")
    = Panic (PanicCaller "mount") s1.
Proof.
  destruct (IsMount_panics_when_listing_fails Script.World string
              Script.cmd_Start Script.uuid_New
              (Script.bound [Script.exits 1 []] "/dev/sdb1" "/mnt/data" "ext4"))
    as (r & out & e & s1 & H & Hr).
  vm_compute in H; inversion H; subst r out e s1; clear H.
  destruct Hr as (_ & Hrun & _); [discriminate|].
  eexists; exact Hrun.
Defined.

(** A whole run keeps the three arguments. *)
Lemma args_never_mutated_witness :
  args_ (mounter (final_state
                    (Start Script.World string Script.cmd_Start Script.uuid_New
                       (Script.fresh Script.ext4_run "/dev/sdb1" "/mnt/data"))))
  = {| dev := "/dev/sdb1"; path_ := "/mnt/data"; ctx := "{}" |}.
Proof.
  destruct (args_never_mutated Script.World string Script.cmd_Start
              Script.uuid_New "/dev/sdb1" "/mnt/data" "{}")
    as (_ & Hstage & _).
  apply (Hstage (Start Script.World string Script.cmd_Start Script.uuid_New)).
  simpl; tauto.
Defined.

(** ** Where the code departs from the specification *)

(** C4, counterexample: a query that prints an empty UUID succeeds,
    and the recorded UUID is the empty string. *)
Lemma changeEXT_records_empty_uuid :
  exists s2,
    changeEXT Script.World string Script.cmd_Start
      (Script.bound [Script.exits 0 [];
                     Script.exits 0 [Script.blkid_line EmptyString]]
         "/dev/sdb1" "/mnt/data" "ext4")
    = Ok None s2
    /\ uuid_ (mounter s2) = EmptyString.
Proof. eexists; split; [vm_compute; reflexivity | reflexivity]. Qed.

(** C5, the failing run: [/mnt] is no token of the listing, only the
    tail of the longer path [/data/mnt], and [IsMount] reports it
    mounted; so [Check] returns nil for a device and a mount path of
    which neither is mounted. *)
Lemma IsMount_matches_tail_of_longer_path :
  let out := "/dev/sdb1 on /data/mnt type ext4 (rw)" in
  (exists s1,
     IsMount Script.World string Script.cmd_Start "/mnt"
       (Script.bound [Script.exits 0 [out]] "/dev/sdb1" "/data/mnt" "ext4")
     = Ok true s1)
  /\ ~ spec_whole_token "/mnt" out
  /\ (~ spec_whole_token "/dev/sdc1" out
      /\ exists s2,
           Check Script.World string Script.cmd_Start
             (Script.bound [Script.exits 0 [out]; Script.exits 0 [out]]
                "/dev/sdc1" "/mnt" "ext4")
           = Ok None s2).
Proof.
  split; [|split; [|split]].
  - eexists; vm_compute; reflexivity.
  - unfold spec_whole_token; vm_compute; intuition discriminate.
  - unfold spec_whole_token; vm_compute; intuition discriminate.
  - eexists; vm_compute; reflexivity.
Qed.


(** C6, the failing run: the probe exits 1 and the launcher reports
    no error of its own; [bindFS] returns nil with no file system
    bound, and [BindArgs] goes on to [bindCaller], which panics. *)
Lemma bindFS_returns_nil_when_probe_fails :
  let s := Script.fresh [Script.exits 1 []] "/dev/sdb1" "/mnt/data" in
  let s1 := {| world := []; trace := ["file -sL /dev/sdb1"];
               mounter := NewMounterWithArgs "/dev/sdb1" "/mnt/data" "{}" |} in
  bindFS Script.World string Script.cmd_Start s = Ok None s1
  /\ BindArgs Script.World string Script.cmd_Start s
     = Panic (PanicError ErrUnsFs) s1
  /\ Start Script.World string Script.cmd_Start Script.uuid_New s
     = Panic (PanicError ErrUnsFs) s1.
Proof. repeat split. Qed.

(** ** Concrete runs for the further properties *)

(** A line of blanks makes [ExecCmd] panic and starts nothing. *)
Lemma ExecCmd_blank_line_panics_witness :
  ExecCmd Script.World string Script.cmd_Start "   "
    (Script.fresh Script.ext4_run "/dev/sdb1" "/mnt/data")
  = Panic (PanicRuntime "slice bounds out of range [1:0]")
      (Script.fresh Script.ext4_run "/dev/sdb1" "/mnt/data").
Proof.
  apply (ExecCmd_blank_line_panics Script.World string Script.cmd_Start).
  reflexivity.
Defined.

(** A fresh mounter has no type: [ErrUnsFs], nothing run. *)
Lemma ChangeDevUUID_unsupported_iff_witness :
  ChangeDevUUID Script.World string Script.cmd_Start Script.uuid_New
    (Script.fresh Script.ext4_run "/dev/sdb1" "/mnt/data")
  = Ok (Some ErrUnsFs) (Script.fresh Script.ext4_run "/dev/sdb1" "/mnt/data").
Proof.
  apply (ChangeDevUUID_unsupported_iff Script.World string Script.cmd_Start
           Script.uuid_New).
  reflexivity.
Defined.

(** [BindArgs] on the ext4 device binds ext4 and the generic tool. *)
Lemma BindArgs_binds_type_and_tool_witness :
  let s := Script.fresh Script.ext4_run "/dev/sdb1" "/mnt/data" in
  let s1 := final_state (BindArgs Script.World string Script.cmd_Start s) in
  BindArgs Script.World string Script.cmd_Start s = Ok None s1
  /\ fs (mounter s1) = "ext4"
  /\ caller_ (mounter s1) = "mount".
Proof.
  intros s s1.
  assert (H : BindArgs Script.World string Script.cmd_Start s = Ok None s1)
    by (vm_compute; reflexivity).
  destruct (BindArgs_binds_type_and_tool Script.World string
              Script.cmd_Start s) as (Hnil & _).
  destruct (Hnil s1 H) as (_ & Hc & _).
  split; [exact H|]; split; [reflexivity | exact Hc].
Defined.

(** The run on an unknown file system returns an error of the list. *)
Lemma Start_outcomes_witness :
  let s := Script.fresh [Script.exits 0 ["/dev/sdb1: data"]]
             "/dev/sdb1" "/mnt/data" in
  exists e s1,
    Start Script.World string Script.cmd_Start Script.uuid_New s
    = Ok (Some e) s1
    /\ (In e [ErrUnKFs; ErrGenUUID; ErrQueryUUID; ErrUMount; ErrMount]
        \/ exists msg, e = ErrExec msg).
Proof.
  intros s.
  destruct (Start Script.World string Script.cmd_Start Script.uuid_New s)
    as [[e|] s1|v s1] eqn:E; try (vm_compute in E; discriminate E).
  exists e, s1; split; [reflexivity|].
  exact (proj1 (Start_outcomes Script.World string Script.cmd_Start
                  Script.uuid_New s) e s1 E).
Defined.

(** The run on the ext4 device succeeds, after a listing that shows
    the device. *)
Lemma Start_nil_after_listing_witness :
  let s := Script.fresh Script.ext4_run "/dev/sdb1" "/mnt/data" in
  let s' :=
    final_state (Start Script.World string Script.cmd_Start Script.uuid_New s)
  in
  Start Script.World string Script.cmd_Start Script.uuid_New s = Ok None s'
  /\ caller_ (mounter s') = "mount"
  /\ args_ (mounter s') = args_ (mounter s).
Proof.
  intros s s'.
  assert (H : Start Script.World string Script.cmd_Start Script.uuid_New s
              = Ok None s') by (vm_compute; reflexivity).
  destruct (Start_nil_after_listing Script.World string Script.cmd_Start
              Script.uuid_New s s' H) as (_ & _ & Hc & Ha).
  split; [exact H|]; split; [exact Hc | exact Ha].
Defined.

(** The UUID of the query, as recorded. *)
Lemma QueryDeviceUUID_uuid_bytes_witness :
  let s := Script.bound [Script.exits 0 [Script.blkid_line "1234-ABCD"]]
             "/dev/sdb1" "/mnt/data" "ext4" in
  let s1 :=
    final_state
      (QueryDeviceUUID Script.World string Script.cmd_Start "/dev/sdb1" s) in
  QueryDeviceUUID Script.World string Script.cmd_Start "/dev/sdb1" s
  = Ok ("1234-abcd", None) s1
  /\ all_bytes uuid_byte "1234-abcd" = true.
Proof.
  intros s s1.
  assert (H : QueryDeviceUUID Script.World string Script.cmd_Start
                "/dev/sdb1" s = Ok ("1234-abcd", None) s1)
    by (vm_compute; reflexivity).
  split; [exact H|].
  exact (proj1 (QueryDeviceUUID_uuid_bytes Script.World string
                  Script.cmd_Start "/dev/sdb1" s s1 _ _ H) eq_refl).
Defined.

(** The run on the ext4 device, started with another stored tool. *)
Lemma caller_is_never_read_witness :
  let s := Script.fresh Script.ext4_run "/dev/sdb1" "/mnt/data" in
  let s' := upd_mounter Script.World string (with_caller string "ntfs-3g") s in
  let run := Start Script.World string Script.cmd_Start Script.uuid_New in
  trace (final_state (run s)) = trace (final_state (run s')).
Proof.
  intros s s' run.
  assert (Hin : In run [BindArgs Script.World string Script.cmd_Start;
                        ChangeDevUUID Script.World string Script.cmd_Start
                          Script.uuid_New;
                        MountDevice Script.World string Script.cmd_Start;
                        Check Script.World string Script.cmd_Start;
                        run]) by (simpl; tauto).
  pose proof (caller_is_never_read Script.World string Script.cmd_Start
                Script.uuid_New "ntfs-3g" s run Hin) as H.
  fold s' in H.
  destruct (run s) as [e s1|v s1], (run s') as [e' s1'|v' s1'];
    try contradiction; apply H.
Defined.

(** The run on an ntfs device. *)
Lemma Start_on_ntfs_witness :
  let s := Script.fresh Script.ntfs_run "/dev/sdb1" "/mnt/data" in
  let s1 := final_state (BindArgs Script.World string Script.cmd_Start s) in
  BindArgs Script.World string Script.cmd_Start s = Ok None s1
  /\ fs (mounter s1) = FsNTFs
  /\ trace (final_state
              (Start Script.World string Script.cmd_Start Script.uuid_New s))
     = ["file -sL /dev/sdb1"; "ntfs-3g  /dev/sdb1 /mnt/data"; "mount"].
Proof.
  intros s s1.
  assert (H : BindArgs Script.World string Script.cmd_Start s = Ok None s1)
    by (vm_compute; reflexivity).
  assert (Hfs : fs (mounter s1) = FsNTFs) by reflexivity.
  split; [exact H|]; split; [exact Hfs|].
  destruct (Start_on_ntfs Script.World string Script.cmd_Start
              Script.uuid_New s s1 H Hfs)
    as (r & out & e & s2 & H2 & _ & _ & Hok & _).
  vm_compute in H2; inversion H2; subst r out e s2; clear H2.
  destruct (Hok eq_refl) as [HS _].
  rewrite HS. vm_compute. reflexivity.
Defined.

(** A key with no closing quote on its line is passed over: the group
    recorded is that of the first key that has one. *)
Example changeEXT_passes_over_unclosed_key :
  exists s2,
    changeEXT Script.World string Script.cmd_Start
      (Script.bound
         [Script.exits 0 [];
          Script.exits 0
            ["/dev/sda: UUID=" ++ String dquote "aaaa";
             "/dev/sdb1: PARTUUID="
               ++ String dquote ("bbbb-01" ++ String dquote EmptyString)]]
         "/dev/sdb1" "/mnt/data" "ext4")
    = Ok None s2
    /\ uuid_ (mounter s2) = "bbbb-01".
Proof. eexists; split; [vm_compute; reflexivity | reflexivity]. Qed.
